(** * bf4-archiver: the archive retrieval engine of [bf4-archiver.py]

    A shallow embedding of the three routines of the script
    ([battlelogApiFetch], [battlelogRetrieveReport] and [main]) together
    with the properties of the retrieval engine.

    The remote service is the environment.  Every request made through the
    blocking fetcher is answered by an _exchange_: the replies the service
    gives to the successive tries of that one request.  A run of the script
    is a function of the list of exchanges still to come; it yields an
    outcome, the exchanges left over and the trace of what it did (requests,
    sleeps, lines printed, files written).  Loops that wait on the service
    recurse on the replies, so a result [Starved] means that the replies ran
    out while the loop was still asking. *)

From Stdlib Require Import String Ascii DecimalString.
From Stdlib Require Import ZArith Bool Arith Lia List.
Import ListNotations.

Set Warnings "-register-all".

Open Scope string_scope.
Open Scope Z_scope.
Open Scope nat_scope.
Open Scope list_scope.

(** ** Values *)

(** What [json.loads] and [resp.json()] produce.  Numbers are integers:
    the script only ever tests a number for being zero. *)
Inductive json : Type :=
| JNull
| JBool (b : bool)
| JNum (n : Z)
| JStr (s : string)
| JList (items : list json)
| JObj (fields : list (string * json)).

(** Python exceptions the script can meet.  [sys.exit(c)] raises
    [SystemExit c]; [except BaseException] catches it like any other. *)
Inductive exn : Type :=
| SystemExit (code : Z)
| KeyError
| IndexError
| TypeError
| ValueError
| AssertionError
| ClientOSError
| ClientError
| DecodeError.

Inductive outcome (A : Type) : Type :=
| Ret (a : A)
| Raise (e : exn)
| Starved.

Arguments Ret {A} a.
Arguments Raise {A} e.
Arguments Starved {A}.

(** The status the interpreter exits with: the code of an uncaught
    [SystemExit], 1 after any other uncaught exception, 0 at a normal end. *)
Definition exit_status {A} (o : outcome A) : option Z :=
  match o with
  | Ret _ => Some 0%Z
  | Raise (SystemExit c) => Some c
  | Raise _ => Some 1%Z
  | Starved => None
  end.

Definition obind {A B} (o : outcome A) (k : A -> outcome B) : outcome B :=
  match o with
  | Ret a => k a
  | Raise e => Raise e
  | Starved => Starved
  end.

(** Truth value of a decoded document ([if report], [not reports[...]]). *)
Definition truthy (j : json) : bool :=
  match j with
  | JNull => false
  | JBool b => b
  | JNum n => negb (n =? 0)%Z
  | JStr s => negb (s =? "")%string
  | JList items => match items with [] => false | _ :: _ => true end
  | JObj fields => match fields with [] => false | _ :: _ => true end
  end.

Fixpoint lookup (k : string) (fields : list (string * json)) : option json :=
  match fields with
  | [] => None
  | (k', v) :: rest => if (k =? k')%string then Some v else lookup k rest
  end.

(** [d[k]] with a string key. *)
Definition subscript (d : json) (k : string) : outcome json :=
  match d with
  | JObj fields =>
      match lookup k fields with
      | Some v => Ret v
      | None => Raise KeyError
      end
  | _ => Raise TypeError
  end.

Definition chars (s : string) : list json :=
  map (fun c => JStr (String c EmptyString)) (list_ascii_of_string s).

(** [d[0]]. *)
Definition first_item (d : json) : outcome json :=
  match d with
  | JList (x :: _) => Ret x
  | JList [] => Raise IndexError
  | JStr s =>
      match chars s with
      | x :: _ => Ret x
      | [] => Raise IndexError
      end
  | JObj _ => Raise KeyError
  | _ => Raise TypeError
  end.

(** [d[:]] followed by [list.extend]: the items a page contributes. *)
Definition slice_all (d : json) : outcome (list json) :=
  match d with
  | JList items => Ret items
  | JStr s => Ret (chars s)
  | _ => Raise TypeError
  end.

(** ['...' + x + '...']: only a string can be spliced into a path. *)
Definition as_str (d : json) : outcome string :=
  match d with
  | JStr s => Ret s
  | _ => Raise TypeError
  end.

(** [l[-1]] on the accumulated list. *)
Definition last_item (l : list json) : outcome json :=
  match rev l with
  | x :: _ => Ret x
  | [] => Raise IndexError
  end.

Definition str_nat (n : nat) : string := NilEmpty.string_of_uint (Nat.to_uint n).

(** ** The service and the trace *)

(** One reply to one try: a response with its status and the decoded body
    ([None] when the body does not decode), or the exception the client
    library raised instead.  An empty body and the text [null] both reach
    [battlelogRetrieveReport] as [Some JNull] ([resp.json()] gives [None]
    for either). *)
Inductive reply : Type :=
| Response (status : Z) (body : option json)
| Broken (e : exn).

Definition exchange : Type := list reply.

(** The paths the script requests, with the values spliced into them. *)
Inductive endpoint : Type :=
| User (profile_name : string)
| Platoon (club_id : string)
| Weapons (profile_id : string)
| Vehicles (profile_id : string)
| Detailed (profile_id : string)
| Assignments (profile_name profile_id user_id : string)
| Awards (profile_id : string)
| Reports (profile_id : string)
| ReportsMore (profile_id : string) (created_at : json)
| GeneralReport (game_report_id : json) (profile_id : string).

(** What [str(...)] is applied to before a file is written: a decoded
    document, a list of them, or the list of object arrays that
    [numpy.array_split] returns. *)
Inductive pyobj : Type :=
| Doc (j : json)
| Docs (l : list json)
| Arrays (chunks : list (list json)).

Inductive file : Type :=
| Named (name : string)
| ReportFile (id : json).

Inductive event : Type :=
| Get (e : endpoint)
| Sleep (seconds : Z)
| Print (s : string)
| PrintError (e : exn)
| Write (f : file) (content : pyobj).

Definition E403 : string :=
  "ERROR: Error 403 Forbidden received. Most likely IP blocked.".
Definition EAPI : string := "ERROR: Error accessing battlelog API.".

(** ** battlelogApiFetch *)

(** The [while True] loop of [battlelogApiFetch] over the replies to one
    request.  The [sys.exit(1)] of the 403 branch sits inside the [try], so
    the [except BaseException] clause catches it, prints and exits again. *)
Fixpoint fetch_tries (ep : endpoint) (x : exchange) : outcome json * list event :=
  match x with
  | [] => (Starved, [])
  | Response status body :: x' =>
      if (status =? 504)%Z then
        let '(o, t) := fetch_tries ep x' in (o, Get ep :: Sleep 5 :: t)
      else if (status =? 403)%Z then
        (Raise (SystemExit 1),
         [Get ep; Print E403; Print EAPI; PrintError (SystemExit 1)])
      else
        (Ret (match body with Some j => j | None => JObj [] end), [Get ep])
  | Broken e :: _ =>
      (Raise (SystemExit 1), [Get ep; Print EAPI; PrintError e])
  end.

(** ** The run monad: exchanges to come, outcome, trace *)

Definition M (A : Type) : Type :=
  list exchange -> outcome A * list exchange * list event.

Definition ret {A} (a : A) : M A := fun w => (Ret a, w, []).

Definition bind {A B} (m : M A) (k : A -> M B) : M B := fun w =>
  match m w with
  | (Ret a, w1, t1) => let '(o, w2, t2) := k a w1 in (o, w2, t1 ++ t2)
  | (Raise e, w1, t1) => (Raise e, w1, t1)
  | (Starved, w1, t1) => (Starved, w1, t1)
  end.

Definition lift {A} (o : outcome A) : M A := fun w => (o, w, []).
Definition emit (e : event) : M unit := fun w => (Ret tt, w, [e]).
Definition say (s : string) : M unit := emit (Print s).
Definition sys_exit {A} (c : Z) : M A := lift (Raise (SystemExit c)).

Declare Scope run_scope.
Delimit Scope run_scope with run.
Notation "x <- m ;; k" := (bind m (fun x => k))
  (at level 100, m at next level, right associativity) : run_scope.
Notation "m ;; k" := (bind m (fun _ => k))
  (at level 100, right associativity) : run_scope.
Open Scope run_scope.

Definition battlelogApiFetch (ep : endpoint) : M json := fun w =>
  match w with
  | [] => (Starved, [], [])
  | x :: w' => let '(o, t) := fetch_tries ep x in (o, w', t)
  end.

(** ** battlelogRetrieveReport *)

(** [await resp.text() != 'null']: the text is [null] exactly when the
    decoded report is [None]. *)
Definition text_not_null (report : json) : bool :=
  match report with
  | JNull => false
  | _ => true
  end.

(** The [while True] loop of [battlelogRetrieveReport] over the replies to
    the tries of one report request; [attempt] is the counter as it stands
    when the iteration starts.  An exception that no [except] clause names
    leaves the coroutine. *)
Fixpoint retrieve_from (url : endpoint) (attempt : nat) (x : exchange)
  : outcome json * list event :=
  match x with
  | [] => (Starved, [])
  | r :: x' =>
      let attempt := S attempt in
      match r with
      | Response status body =>
          if (status =? 200)%Z then
            match body with
            | None => (Raise DecodeError, [Get url])
            | Some report =>
                if truthy report && text_not_null report then
                  (Ret report, [Get url; Print "o"])
                else if 6 <=? attempt then
                  (Ret (JObj []), [Get url; Print "x"])
                else
                  let '(o, t) := retrieve_from url attempt x' in
                  (o, Get url :: Print "." :: Sleep 3 :: t)
            end
          else
            let '(o, t) := retrieve_from url attempt x' in
            (o, Get url :: Print "X" :: Sleep 600 :: t)
      | Broken AssertionError =>
          let '(o, t) := retrieve_from url attempt x' in
          (o, Get url :: Print "X" :: Sleep 600 :: t)
      | Broken ClientOSError =>
          let '(o, t) := retrieve_from url attempt x' in
          (o, Get url :: Sleep 10 :: t)
      | Broken e => (Raise e, [Get url])
      end
  end.

Definition battlelogRetrieveReport (url : endpoint) (x : exchange)
  : outcome json * list event :=
  retrieve_from url 0 x.

(** ** Enumeration of the report index *)

Definition game_reports (reports : json) : outcome json :=
  obind (subscript reports "data") (fun d => subscript d "gameReports").

Definition first_page (profile_name profile_id : string) : M (list json) :=
  reports <- battlelogApiFetch (Reports profile_id);;
  match obind (game_reports reports) slice_all with
  | Raise KeyError =>
      say ("ERROR: Battle reports probably are hidden by user (See "
           ++ "https://battlelog.battlefield.com/bf4/soldier/" ++ profile_name
           ++ "/battlereports/" ++ profile_id ++ "/pc/" ++ ").")%string;;
      sys_exit 1
  | o => lift o
  end.

Inductive loop_step : Type :=
| Break
| Continue (report_list : list json) (noDataReturned : nat).

(** One pass through the body of the pagination loop. *)
Definition page_step (profile_id : string) (report_list : list json)
    (noDataReturned : nat) : M loop_step :=
  created_at <- lift (obind (last_item report_list)
                            (fun s => subscript s "createdAt"));;
  reports <- battlelogApiFetch (ReportsMore profile_id created_at);;
  page <- lift (game_reports reports);;
  if negb (truthy page) && (5 <=? noDataReturned) then ret Break
  else if negb (truthy page) then ret (Continue report_list (S noDataReturned))
  else
    items <- lift (slice_all page);;
    let report_list := report_list ++ items in
    say ("INFO: Fetching reports, this may take a while... "
         ++ str_nat (length report_list) ++ " found.")%string;;
    ret (Continue report_list 0).

(** The pagination loop.  A pass that comes back has used up exactly the
    exchange at the head, so the loop goes on with the tail. *)
Fixpoint more_reports (profile_id : string) (report_list : list json)
    (noDataReturned : nat) (w : list exchange)
  : outcome (list json) * list exchange * list event :=
  match w with
  | [] =>
      let '(o, w1, t) := page_step profile_id report_list noDataReturned [] in
      (obind o (fun _ => Starved), w1, t)
  | x :: w' =>
      match page_step profile_id report_list noDataReturned (x :: w') with
      | (Ret Break, _, t) => (Ret report_list, w', t)
      | (Ret (Continue report_list' n'), _, t) =>
          let '(o, w2, t2) := more_reports profile_id report_list' n' w' in
          (o, w2, t ++ t2)
      | (Raise e, w1, t) => (Raise e, w1, t)
      | (Starved, w1, t) => (Starved, w1, t)
      end
  end.

Definition enumerate (profile_name profile_id : string) : M (list json) :=
  report_list <- first_page profile_name profile_id;;
  more_reports profile_id report_list 0.

(** ** Batches *)

(** [math.ceil(len(report_list)/20)]. *)
Definition sections_for (n : nat) : nat :=
  if n mod 20 =? 0 then n / 20 else S (n / 20).

Fixpoint cumsum (acc : nat) (l : list nat) : list nat :=
  match l with
  | [] => []
  | x :: l' => (acc + x) :: cumsum (acc + x) l'
  end.

(** [ary[st:end]] for [0 <= st]. *)
Definition slice {A} (st en : nat) (ary : list A) : list A :=
  firstn (en - st) (skipn st ary).

(** [numpy.array_split(ary, Nsections)] for an integer number of sections,
    on a list that numpy takes as a one-dimensional array, as it does a
    list of objects: [Ntotal mod Nsections] sections of
    [Ntotal / Nsections + 1] items, then the other sections with one item
    less, cut at the running sums.  (A list with JSON arrays among its
    items is outside: numpy would look for further dimensions in it.) *)
Definition array_split {A} (ary : list A) (Nsections : nat)
  : outcome (list (list A)) :=
  if Nsections =? 0 then Raise ValueError
  else
    let Ntotal := length ary in
    let Neach_section := Ntotal / Nsections in
    let extras := Ntotal mod Nsections in
    let section_sizes :=
      0 :: repeat (S Neach_section) extras
        ++ repeat Neach_section (Nsections - extras) in
    let div_points := cumsum 0 section_sizes in
    Ret (map (fun i => slice (nth i div_points 0) (nth (S i) div_points 0) ary)
             (seq 0 Nsections)).

(** ** The fetch stage *)

Fixpoint traverse {A B} (f : A -> outcome B) (l : list A) : outcome (list B) :=
  match l with
  | [] => Ret []
  | a :: l' => obind (f a) (fun b => obind (traverse f l') (fun bs => Ret (b :: bs)))
  end.

Definition report_url (profile_id : string) (stub : json) : outcome endpoint :=
  obind (subscript stub "gameReportId")
        (fun id => Ret (GeneralReport id profile_id)).

Fixpoint first_raise {A} (os : list (outcome A)) : option exn :=
  match os with
  | [] => None
  | Raise e :: _ => Some e
  | _ :: os' => first_raise os'
  end.

Fixpoint all_ret {A} (os : list (outcome A)) : option (list A) :=
  match os with
  | [] => Some []
  | Ret a :: os' => option_map (cons a) (all_ret os')
  | _ :: _ => None
  end.

(** [asyncio.gather]: the results in the order of the tasks, the exception
    of a task that raised (here the first in task order), and no result
    while a task is still waiting.  The traces of the tasks are put one
    after the other: their interleaving is the event loop's. *)
Definition gather (tasks : list (outcome json * list event))
  : outcome (list json) * list event :=
  let os := map fst tasks in
  (match first_raise os with
   | Some e => Raise e
   | None => match all_ret os with
             | Some reports => Ret reports
             | None => Starved
             end
   end,
   concat (map snd tasks)).

(** The task [ensure_future] makes for one url. *)
Definition report_task (service : endpoint -> exchange) (url : endpoint)
  : outcome json * list event :=
  battlelogRetrieveReport url (service url).

(** One chunk: a task per stub, each answered by the exchange the service
    has for its url, then the non-empty results in task order. *)
Definition fetch_chunk (profile_id : string) (service : endpoint -> exchange)
    (chunk : list json) : outcome (list json) * list event :=
  match traverse (report_url profile_id) chunk with
  | Ret urls =>
      let '(o, t) :=
        gather (map (report_task service) urls) in
      (obind o (fun reports => Ret (filter truthy reports)), t)
  | Raise e => (Raise e, [])
  | Starved => (Starved, [])
  end.

Fixpoint fetch_chunks (profile_id : string) (service : endpoint -> exchange)
    (chunks : list (list json)) (battlelog_reports : list json)
  : outcome (list json) * list event :=
  match chunks with
  | [] => (Ret battlelog_reports, [])
  | chunk :: chunks' =>
      match fetch_chunk profile_id service chunk with
      | (Ret reports, t) =>
          let '(o, t2) :=
            fetch_chunks profile_id service chunks' (battlelog_reports ++ reports) in
          (o, t ++ t2)
      | (Raise e, t) => (Raise e, t)
      | (Starved, t) => (Starved, t)
      end
  end.

(** Lines 153 to 171 of [main]: split, then fetch chunk after chunk.  The
    result carries the chunks too, because [report_list] is bound to them
    from the split on. *)
Definition fetch_all (profile_id : string) (service : endpoint -> exchange)
    (report_list : list json)
  : outcome (list (list json) * list json) * list event :=
  match array_split report_list (sections_for (length report_list)) with
  | Ret chunks =>
      let '(o, t) := fetch_chunks profile_id service chunks [] in
      (obind o (fun battlelog_reports => Ret (chunks, battlelog_reports)), t)
  | Raise e => (Raise e, [])
  | Starved => (Starved, [])
  end.

(** ** Writing the archive *)

Fixpoint write_reports (battlelog_reports : list json) : outcome unit * list event :=
  match battlelog_reports with
  | [] => (Ret tt, [])
  | report :: rest =>
      match subscript report "id" with
      | Ret id =>
          let '(o, t) := write_reports rest in
          (o, Write (ReportFile id) (Doc report) :: t)
      | Raise e => (Raise e, [])
      | Starved => (Starved, [])
      end
  end.

(** The [try] block of the write step; what it raises is caught by
    [except BaseException], which prints and exits.  Every file is taken
    to open and to take its text: so it is on a healthy disk when the
    directory of the profile can be made and the [id] of each report makes
    a file name (no path separator in it, no NUL, not too long). *)
Definition write_all (profile_data club_data weapon_stats vehicle_stats
    detailed_stats assignment_stats award_stats : json)
    (report_list : list (list json)) (battlelog_reports : list json) : M unit :=
  fun w =>
    let metadata :=
      [ Write (Named "profile_data.json") (Doc profile_data);
        Write (Named "club_data.json") (Doc club_data);
        Write (Named "weapon_stats.json") (Doc weapon_stats);
        Write (Named "vehicle_stats.json") (Doc vehicle_stats);
        Write (Named "detailed_stats.json") (Doc detailed_stats);
        Write (Named "assignment_stats.json") (Doc assignment_stats);
        Write (Named "award_stats.json") (Doc award_stats);
        Write (Named "report_list.json") (Arrays report_list) ] in
    match write_reports battlelog_reports with
    | (Ret _, t) =>
        (Ret tt, w, metadata ++ t ++ [Print "INFO: Writing data to disk... Done"])
    | (Raise e, t) =>
        (Raise (SystemExit 1), w,
         metadata ++ t ++ [Print "ERROR: Error writing to disk."; PrintError e])
    | (Starved, t) => (Starved, w, metadata ++ t)
    end.

(** ** main *)

Definition persona (profile_data : json) (field : string) : outcome json :=
  obind (subscript profile_data "context") (fun c =>
  obind (subscript c "activitystream") (fun a =>
  obind (first_item a) (fun e =>
  obind (subscript e "persona") (fun p => subscript p field)))).

Definition club (profile_data : json) : outcome json :=
  obind (subscript profile_data "context") (fun c =>
  obind (subscript c "profileCommon") (fun pc =>
  obind (subscript pc "club") (fun cl => subscript cl "id"))).

(** [main], the cookie jar taken as loaded; [profile_name] is [sys.argv[1]]
    and [service] gives the exchange behind each report url. *)
Definition main (profile_name : string) (service : endpoint -> exchange) : M unit :=
  say "INFO: Fetching profile data...";;
  profile_data <- battlelogApiFetch (User profile_name);;
  say "INFO: Fetching profile data... Done";;
  profile_id <- lift (persona profile_data "personaId");;
  user_id <- lift (persona profile_data "userId");;
  club_id <- lift (club profile_data);;
  say "INFO: Fetching active club data...";;
  club_id <- lift (as_str club_id);;
  club_data <- battlelogApiFetch (Platoon club_id);;
  say "INFO: Fetching active club data... Done";;
  say "INFO: Fetching weapon stats...";;
  profile_id <- lift (as_str profile_id);;
  weapon_stats <- battlelogApiFetch (Weapons profile_id);;
  say "INFO: Fetching weapon stats... Done";;
  say "INFO: Fetching vehicle stats...";;
  vehicle_stats <- battlelogApiFetch (Vehicles profile_id);;
  say "INFO: Fetching vehicle stats... Done";;
  say "INFO: Fetching detailed stats...";;
  detailed_stats <- battlelogApiFetch (Detailed profile_id);;
  say "INFO: Fetching detailed stats... Done";;
  say "INFO: Fetching assignment stats...";;
  user_id <- lift (as_str user_id);;
  assignment_stats <- battlelogApiFetch (Assignments profile_name profile_id user_id);;
  say "INFO: Fetching assignment stats... Done";;
  say "INFO: Fetching award stats...";;
  award_stats <- battlelogApiFetch (Awards profile_id);;
  say "INFO: Fetching award stats... Done";;
  say "INFO: Fetching reports, this may take a while...";;
  report_list <- enumerate profile_name profile_id;;
  say "INFO: Fetching reports, this may take a while...                                                 ";;
  say "INFO: Fetching reports, this may take a while... Done";;
  say ("INFO: Total reports: " ++ str_nat (length report_list))%string;;
  say "INFO: Now fetching individual reports, this can take a LONG time...";;
  fetched <- (fun w => let '(o, t) := fetch_all profile_id service report_list in
                       (o, w, t));;
  let '(report_list, battlelog_reports) := fetched in
  say "INFO: Done fetching reports.";;
  say "INFO: Writing data to disk...";;
  write_all profile_data club_data weapon_stats vehicle_stats detailed_stats
            assignment_stats award_stats report_list battlelog_reports.

(** ** Vocabulary of the statements *)

(** A reply with status 200 whose body decodes to [body]. *)
Definition ok (body : json) : reply := Response 200 (Some body).

(** The trace of [n] tries that each end in the same way. *)
Definition tries (n : nat) (one : list event) : list event :=
  concat (repeat one n).

(** What a stub's task comes back with. *)
Definition settled (profile_id : string) (service : endpoint -> exchange)
    (stub : json) : outcome json :=
  obind (report_url profile_id stub)
        (fun url => fst (report_task service url)).

(** The stub's task comes back with some report. *)
Definition settles (profile_id : string) (service : endpoint -> exchange)
    (stub : json) : Prop :=
  exists report, settled profile_id service stub = Ret report.

(** The report is what the task of some stub of [stubs] came back with,
    and it is not empty. *)
Definition fetched_for (profile_id : string) (service : endpoint -> exchange)
    (stubs : list json) (report : json) : Prop :=
  exists stub url,
    In stub stubs /\ report_url profile_id stub = Ret url
    /\ fst (report_task service url) = Ret report /\ truthy report = true.

(** The details a list of stubs contributes once every task has settled. *)
Definition kept (profile_id : string) (service : endpoint -> exchange)
    (stubs : list json) : list json :=
  flat_map (fun stub => match settled profile_id service stub with
                        | Ret report => if truthy report then [report] else []
                        | _ => []
                        end) stubs.

(** The sections of [ary] of the given sizes, from index [st] on. *)
Fixpoint cuts {A} (st : nat) (sizes : list nat) (ary : list A) : list (list A) :=
  match sizes with
  | [] => []
  | n :: sizes' => slice st (st + n) ary :: cuts (st + n) sizes' ary
  end.

(** The exchange comes back with a page whose [gameReports] is the list
    [items] (after any number of 504s, under any status that is no 403). *)
Definition delivers (x : exchange) (items : list json) : Prop :=
  exists reports,
    (forall ep, exists t, fetch_tries ep x = (Ret reports, t))
    /\ game_reports reports = Ret (JList items).

(** The stub has a [createdAt]. *)
Definition dated (stub : json) : Prop :=
  exists v, subscript stub "createdAt" = Ret v.

Definition is_empty_page (page : list json) : bool :=
  match page with
  | [] => true
  | _ :: _ => false
  end.

(** The first [k] pages exist and are all empty. *)
Definition starts_with_empties (k : nat) (pages : list (list json)) : bool :=
  (k <=? length pages) && forallb is_empty_page (firstn k pages).

(** Somewhere in [pages] there are [k] empty pages in a row. *)
Fixpoint empty_run (k : nat) (pages : list (list json)) : bool :=
  starts_with_empties k pages
  || match pages with
     | [] => false
     | _ :: pages' => empty_run k pages'
     end.

(** What a trace writes to the file called [name], in order. *)
Definition written (name : string) (t : list event) : list pyobj :=
  flat_map (fun e => match e with
                     | Write (Named n) content =>
                         if (n =? name)%string then [content] else []
                     | _ => []
                     end) t.

(** The trace has no 403 on a blocking fetch. *)
Definition clean (t : list event) : Prop := ~ In (Print E403) t.

(** How the trace of a blocking fetch ends on a 403. *)
Definition forbidden (ep : endpoint) : list event :=
  [Get ep; Print E403; Print EAPI; PrintError (SystemExit 1)].

(** The exchange leads a blocking fetch to a 403: after any number of
    504s its next reply has status 403. *)
Definition forbids (x : exchange) : Prop :=
  exists bodies body x', x = map (Response 504) bodies ++ Response 403 body :: x'.

(** A step of the run, started on the exchanges [w], obeys the 403 rule:
    the exchanges it used up are a front part of [w]; either none of them
    leads to a 403 and the trace has no 403 line, or the last one used is
    the first that does, and the step ended there with [SystemExit 1] and
    a trace that ends with that request and the error lines. *)
Definition ends_at_403 {A} (w : list exchange)
    (r : outcome A * list exchange * list event) : Prop :=
  exists used,
    w = used ++ snd (fst r)
    /\ ((Forall (fun x => ~ forbids x) used /\ clean (snd r))
        \/ (exists used0 x pre ep,
              used = used0 ++ [x]
              /\ Forall (fun y => ~ forbids y) used0 /\ forbids x
              /\ fst (fst r) = Raise (SystemExit 1)
              /\ snd r = pre ++ forbidden ep /\ clean pre)).

Definition lawful {A} (m : M A) : Prop := forall w, ends_at_403 w (m w).

(** ** Sample data *)

Definition sample_stub (id : string) (created_at : Z) : json :=
  JObj [("gameReportId", JStr id); ("createdAt", JNum created_at)].

Definition sample_detail (id : string) : json :=
  JObj [("id", JStr id); ("duration", JNum 600)].

Definition sample_page (stubs : list json) : json :=
  JObj [("data", JObj [("gameReports", JList stubs)])].

Definition sample_profile : json :=
  JObj [("context",
         JObj [("activitystream",
                JList [JObj [("persona",
                              JObj [("personaId", JStr "7"); ("userId", JStr "8")])]]);
               ("profileCommon", JObj [("club", JObj [("id", JStr "9")])])])].

(** The exchanges of the seven metadata requests of a run. *)
Definition sample_metadata : list exchange :=
  [ok sample_profile] :: repeat [ok (JObj [("ok", JBool true)])] 6.

Definition empty_page : exchange := [ok (sample_page [])].

(** Stubs 1 to [n], newest first. *)
Definition sample_stubs (n : nat) : list json :=
  map (fun i => sample_stub (str_nat i) (Z.of_nat (100 - i))) (seq 1 n).

(** A service that has every report at hand under its own id. *)
Definition ready_service (url : endpoint) : exchange :=
  match url with
  | GeneralReport (JStr id) _ => [ok (sample_detail id)]
  | _ => []
  end.

(** A service that has report 2 never ready and every other report at
    hand under its own id. *)
Definition sample_service (url : endpoint) : exchange :=
  match url with
  | GeneralReport (JStr id) _ =>
      if (id =? "2")%string then repeat (ok JNull) 7
      else [ok (sample_detail id)]
  | _ => []
  end.

(** A service that answers every report request with report 999. *)
Definition stray_service (_ : endpoint) : exchange := [ok (sample_detail "999")].

(** ** Further vocabulary *)

(** The number of requests in a trace. *)
Definition requests (t : list event) : nat :=
  length (filter (fun e => match e with Get _ => true | _ => false end) t).

(** The line [main] prints when the first page has no report list. *)
Definition hidden_reports_line (profile_name profile_id : string) : string :=
  ("ERROR: Battle reports probably are hidden by user (See "
   ++ "https://battlelog.battlefield.com/bf4/soldier/" ++ profile_name
   ++ "/battlereports/" ++ profile_id ++ "/pc/" ++ ").")%string.

(** The exchange ends in the document [reports], whatever is asked. *)
Definition answers (x : exchange) (reports : json) : Prop :=
  forall ep, exists t, fetch_tries ep x = (Ret reports, t).







(** The document is an object. *)
Definition object (j : json) : Prop := exists fields, j = JObj fields.




(** A service whose answer for report 3 does not decode. *)
Definition undecodable_service (url : endpoint) : exchange :=
  match url with
  | GeneralReport (JStr id) _ =>
      if (id =? "3")%string then [Response 200 None] else [ok (sample_detail id)]
  | _ => []
  end.

(** A profile of a player who is in no platoon. *)
Definition clubless_profile : json :=
  JObj [("context",
         JObj [("activitystream",
                JList [JObj [("persona",
                              JObj [("personaId", JStr "7"); ("userId", JStr "8")])]]);
               ("profileCommon", JObj [("club", JNull)])])].

(** ** Theorems: the single-request fetcher *)

(** C10: a response whose status is neither 504 nor 403 ends the call at
    once, whatever the status: no retry, no exit.  The call returns the
    decoded body, or the empty object when the body does not decode, so two
    such responses with the same body give the same result under any two
    such statuses (a 500 or a 429 looks like a 200). *)
Theorem C10_other_status_returns_body :
  forall ep status status' body x w,
    status <> 504%Z -> status <> 403%Z ->
    status' <> 504%Z -> status' <> 403%Z ->
    battlelogApiFetch ep ((Response status body :: x) :: w)
      = (Ret (match body with Some j => j | None => JObj [] end), w, [Get ep])
    /\ battlelogApiFetch ep ((Response status body :: x) :: w)
       = battlelogApiFetch ep ((Response status' body :: x) :: w).
Proof.
  intros ep status status' body x w H1 H2 H3 H4.
  unfold battlelogApiFetch; cbn [fetch_tries].
  apply Z.eqb_neq in H1, H2, H3, H4.
  rewrite H1, H2, H3, H4. split; reflexivity.
Qed.

Lemma C10_other_status_returns_body_witness :
  battlelogApiFetch (User "Brisppy") ([Response 500 None] :: [])
    = (Ret (JObj []), [], [Get (User "Brisppy")])
  /\ battlelogApiFetch (User "Brisppy") ([Response 500 None] :: [])
     = battlelogApiFetch (User "Brisppy") ([Response 429 None] :: []).
Proof.
  apply (C10_other_status_returns_body (User "Brisppy") 500%Z 429%Z None [] []);
    lia.
Defined.

(** ** Theorems: the per-record retry loop *)

Lemma truthy_text_not_null (report : json) :
  truthy report = true -> text_not_null report = true.
Proof. destruct report; simpl; congruence. Qed.

Lemma retrieve_success url attempt report x :
  truthy report = true ->
  retrieve_from url attempt (ok report :: x) = (Ret report, [Get url; Print "o"]).
Proof.
  intros Ht. cbn. rewrite Ht, (truthy_text_not_null _ Ht). reflexivity.
Qed.

Lemma retrieve_no_data url attempt body x :
  truthy body = false ->
  retrieve_from url attempt (ok body :: x)
  = if 6 <=? S attempt then (Ret (JObj []), [Get url; Print "x"])
    else let '(o, t) := retrieve_from url (S attempt) x in
         (o, Get url :: Print "." :: Sleep 3 :: t).
Proof. intros Hf. cbn. rewrite Hf. reflexivity. Qed.

Lemma retrieve_rate_limited url attempt status body x :
  status <> 200%Z ->
  retrieve_from url attempt (Response status body :: x)
  = let '(o, t) := retrieve_from url (S attempt) x in
    (o, Get url :: Print "X" :: Sleep 600 :: t).
Proof.
  intros Hs. apply Z.eqb_neq in Hs. cbn. rewrite Hs. reflexivity.
Qed.

Lemma retrieve_transport_errors url k :
  forall attempt x,
    retrieve_from url attempt (repeat (Broken ClientOSError) k ++ x)
    = (fst (retrieve_from url (attempt + k) x),
       tries k [Get url; Sleep 10] ++ snd (retrieve_from url (attempt + k) x)).
Proof.
  induction k as [|k IH]; intros attempt x.
  - rewrite Nat.add_0_r. cbn. now destruct (retrieve_from url attempt x).
  - cbn [repeat app retrieve_from]. rewrite IH.
    replace (S attempt + k) with (attempt + S k) by lia.
    reflexivity.
Qed.

(** A run of replies without data, started at [attempt] tries behind: the
    loop gives up on the reply that is try number 6. *)
Lemma retrieve_gives_up url bodies :
  forall attempt x,
    Forall (fun b => truthy b = false) bodies ->
    attempt + length bodies = 6 -> bodies <> [] ->
    retrieve_from url attempt (map ok bodies ++ x)
    = (Ret (JObj []),
       tries (length bodies - 1) [Get url; Print "."; Sleep 3]
         ++ [Get url; Print "x"]).
Proof.
  induction bodies as [|b bodies IH]; intros attempt x Hall Hlen Hne.
  - congruence.
  - inversion Hall as [|? ? Hb Hall']; subst.
    cbn [map app]. rewrite (retrieve_no_data _ _ _ _ Hb).
    destruct bodies as [|b' bodies'].
    + cbn in Hlen. replace attempt with 5 by lia. reflexivity.
    + cbn [length] in Hlen.
      replace (6 <=? S attempt) with false
        by (symmetry; apply Nat.leb_gt; lia).
      rewrite (IH (S attempt) x Hall') by (cbn [length]; lia || congruence).
      cbn [length]. replace (S (S (length bodies')) - 1) with
        (S (S (length bodies') - 1)) by lia.
      reflexivity.
Qed.

(** C5: a response that is not a 200 sends the loop to sleep for 600
    seconds (against 3 after an empty body and 10 after a connection
    error) and to try again, and the tries so spent are never held against
    the record: after any number of such responses, from any count of
    tries, a 200 with a non-empty body is returned as the result. *)
Theorem C5_rate_limited_has_no_cap :
  forall url blocked attempt report x,
    Forall (fun r => fst r <> 200%Z) blocked ->
    truthy report = true ->
    retrieve_from url attempt
      (map (fun r => Response (fst r) (snd r)) blocked ++ ok report :: x)
    = (Ret report,
       tries (length blocked) [Get url; Print "X"; Sleep 600]
         ++ [Get url; Print "o"])
    /\ (3 < 600)%Z /\ (10 < 600)%Z.
Proof.
  intros url blocked attempt report x Hall Ht.
  split; [|lia].
  revert attempt. induction Hall as [|[st body] blocked Hst Hall IH]; intros attempt.
  - cbn [map app length]. now rewrite retrieve_success.
  - cbn [map app fst snd length].
    rewrite (retrieve_rate_limited _ _ _ _ _ Hst), IH. reflexivity.
Qed.

Lemma C5_rate_limited_has_no_cap_witness :
  retrieve_from (GeneralReport (JStr "1") "7") 0
    (map (fun r => Response (fst r) (snd r))
         [(403%Z, None); (429%Z, None); (403%Z, None); (403%Z, None);
          (500%Z, None); (403%Z, None); (403%Z, None)]
     ++ ok (JObj [("id", JStr "1")]) :: [])
  = (Ret (JObj [("id", JStr "1")]),
     tries 7 [Get (GeneralReport (JStr "1") "7"); Print "X"; Sleep 600]
       ++ [Get (GeneralReport (JStr "1") "7"); Print "o"])
  /\ (3 < 600)%Z /\ (10 < 600)%Z.
Proof.
  apply (C5_rate_limited_has_no_cap (GeneralReport (JStr "1") "7")
           [(403%Z, None); (429%Z, None); (403%Z, None); (403%Z, None);
            (500%Z, None); (403%Z, None); (403%Z, None)]
           0 (JObj [("id", JStr "1")]) []).
  - repeat constructor; simpl; lia.
  - reflexivity.
Defined.

(** C4, as the code has it: a connection error ([ClientOSError]) makes the
    loop sleep 10 seconds and try again, without limit, but every such
    pass through the loop adds one to [attempt] like any other.  After [k]
    of them an empty body is judged as try number [k + 1]: with five or
    more behind it the first empty body is final, with fewer the loop
    retries and goes on from count [k + 1]. *)
Theorem C4_transport_errors_are_counted :
  forall url k body x,
    truthy body = false ->
    (forall attempt y,
        retrieve_from url attempt (repeat (Broken ClientOSError) k ++ y)
        = (fst (retrieve_from url (attempt + k) y),
           tries k [Get url; Sleep 10] ++ snd (retrieve_from url (attempt + k) y)))
    /\ (5 <= k ->
        battlelogRetrieveReport url (repeat (Broken ClientOSError) k ++ ok body :: x)
        = (Ret (JObj []), tries k [Get url; Sleep 10] ++ [Get url; Print "x"]))
    /\ (k < 5 ->
        battlelogRetrieveReport url (repeat (Broken ClientOSError) k ++ ok body :: x)
        = (fst (retrieve_from url (S k) x),
           tries k [Get url; Sleep 10]
             ++ Get url :: Print "." :: Sleep 3 :: snd (retrieve_from url (S k) x))).
Proof.
  intros url k body x Hf. split; [|split].
  - intros attempt y. apply retrieve_transport_errors.
  - intros Hk. unfold battlelogRetrieveReport.
    rewrite retrieve_transport_errors, (retrieve_no_data _ _ _ _ Hf).
    cbn [Nat.add].
    replace (6 <=? S k) with true by (symmetry; apply Nat.leb_le; lia).
    reflexivity.
  - intros Hk. unfold battlelogRetrieveReport.
    rewrite retrieve_transport_errors, (retrieve_no_data _ _ _ _ Hf).
    cbn [Nat.add].
    replace (6 <=? S k) with false by (symmetry; apply Nat.leb_gt; lia).
    now destruct (retrieve_from url (S k) x).
Qed.

Lemma C4_transport_errors_are_counted_witness :
  battlelogRetrieveReport (GeneralReport (JStr "1") "7")
    (repeat (Broken ClientOSError) 5 ++ ok JNull :: [ok (JObj [("id", JStr "1")])])
  = (Ret (JObj []),
     tries 5 [Get (GeneralReport (JStr "1") "7"); Sleep 10]
       ++ [Get (GeneralReport (JStr "1") "7"); Print "x"]).
Proof.
  apply (C4_transport_errors_are_counted (GeneralReport (JStr "1") "7") 5 JNull
           [ok (JObj [("id", JStr "1")])]).
  - reflexivity.
  - lia.
Defined.

(** C4 as stated fails: the same empty body followed by the same good
    reply ends in the report when no connection error came first, and in
    the empty result (the record is given up) when five did. *)
Lemma C4_counterexample :
  fst (battlelogRetrieveReport (GeneralReport (JStr "1") "7")
         [ok JNull; ok (JObj [("id", JStr "1")])])
    = Ret (JObj [("id", JStr "1")])
  /\ fst (battlelogRetrieveReport (GeneralReport (JStr "1") "7")
            (repeat (Broken ClientOSError) 5
               ++ [ok JNull; ok (JObj [("id", JStr "1")])]))
     = Ret (JObj []).
Proof. split; reflexivity. Qed.

(** ** Theorems: batches *)

Section Batches.
Context {A : Type}.
Implicit Types (ary : list A) (sizes : list nat).

Lemma firstn_then_firstn a b : forall ary,
  firstn a ary ++ firstn b (skipn a ary) = firstn (a + b) ary.
Proof.
  induction a as [|a IH]; intros [|v ary]; cbn; try reflexivity.
  - now rewrite firstn_nil.
  - now rewrite IH.
Qed.

Lemma slice_length st n ary : length (slice st (st + n) ary) <= n.
Proof.
  unfold slice. rewrite length_firstn. lia.
Qed.

Lemma slice_glue st a b ary :
  slice st (st + a) ary ++ slice (st + a) (st + a + b) ary
  = slice st (st + (a + b)) ary.
Proof.
  unfold slice.
  replace (st + a - st) with a by lia.
  replace (st + a + b - (st + a)) with b by lia.
  replace (st + (a + b) - st) with (a + b) by lia.
  rewrite (Nat.add_comm st a), <- skipn_skipn.
  apply firstn_then_firstn.
Qed.

Lemma split_as_cuts ary sizes : forall st,
  map (fun i => slice (nth i (st :: cumsum st sizes) 0)
                      (nth (S i) (st :: cumsum st sizes) 0) ary)
      (seq 0 (length sizes))
  = cuts st sizes ary.
Proof.
  induction sizes as [|n sizes IH]; intros st; [reflexivity|].
  cbn [length cuts cumsum]. rewrite <- cons_seq, <- seq_shift.
  cbn [map]. rewrite map_map. cbn [nth]. f_equal. apply IH.
Qed.

Lemma concat_cuts ary sizes : forall st,
  concat (cuts st sizes ary) = slice st (st + list_sum sizes) ary.
Proof.
  induction sizes as [|n sizes IH]; intros st; cbn [cuts concat list_sum].
  - unfold slice. rewrite Nat.add_0_r, Nat.sub_diag. reflexivity.
  - rewrite IH. apply slice_glue.
Qed.

Lemma cuts_bounded ary m sizes : forall st,
  Forall (fun n => n <= m) sizes ->
  Forall (fun c => length c <= m) (cuts st sizes ary).
Proof.
  induction sizes as [|n sizes IH]; intros st Hall; cbn [cuts];
    inversion Hall as [|? ? Hn Hall']; subst; constructor.
  - exact (Nat.le_trans _ _ _ (slice_length st n ary) Hn).
  - apply IH, Hall'.
Qed.

Lemma length_cuts ary sizes : forall st, length (cuts st sizes ary) = length sizes.
Proof. induction sizes; intros st; cbn; auto. Qed.
End Batches.

Lemma list_sum_repeat a k : list_sum (repeat a k) = k * a.
Proof.
  induction k as [|k IH]; [reflexivity|].
  change (a + list_sum (repeat a k) = a + k * a). now rewrite IH.
Qed.

Lemma Forall_repeat_pos {T} (P : T -> Prop) a k :
  (0 < k -> P a) -> Forall P (repeat a k).
Proof.
  intros H. destruct k; [constructor|].
  apply Forall_forall. intros v Hv. apply repeat_spec in Hv. subst. apply H. lia.
Qed.

(** The number of sections is the ceiling of [n / 20]. *)
Lemma sections_for_ceil n :
  n <= 20 * sections_for n /\ (0 < n -> 20 * (sections_for n - 1) < n).
Proof.
  unfold sections_for.
  pose proof (Nat.div_mod_eq n 20) as E.
  pose proof (Nat.mod_upper_bound n 20 ltac:(lia)) as B.
  destruct (Nat.eqb_spec (n mod 20) 0); lia.
Qed.

(** [array_split] seen as [cuts]. *)
Lemma array_split_cuts {A} (ary : list A) k :
  0 < k ->
  array_split ary k
  = Ret (cuts 0 (repeat (S (length ary / k)) (length ary mod k)
                   ++ repeat (length ary / k) (k - length ary mod k)) ary).
Proof.
  intros Hk. unfold array_split.
  destruct (Nat.eqb_spec k 0) as [->|_]; [lia|].
  f_equal. cbn [cumsum Nat.add].
  pose proof (Nat.mod_upper_bound (length ary) k ltac:(lia)) as B.
  rewrite <- split_as_cuts.
  rewrite length_app, !repeat_length.
  replace (length ary mod k + (k - length ary mod k)) with k by lia.
  reflexivity.
Qed.

(** What the split of a non-empty list into [sections_for] sections is. *)
Lemma array_split_partition {A} (ary : list A) :
  ary <> [] ->
  exists chunks,
    array_split ary (sections_for (length ary)) = Ret chunks
    /\ length chunks = sections_for (length ary)
    /\ concat chunks = ary
    /\ Forall (fun c => length c <= 20) chunks.
Proof.
  intros Hne.
  assert (0 < length ary) as Hpos by (destruct ary; cbn; [congruence|lia]).
  destruct (sections_for_ceil (length ary)) as [Hup Hlo]. specialize (Hlo Hpos).
  set (k := sections_for (length ary)) in *.
  assert (0 < k) as Hk by lia.
  pose proof (Nat.div_mod_eq (length ary) k) as E.
  pose proof (Nat.mod_upper_bound (length ary) k ltac:(lia)) as B.
  eexists. split; [apply array_split_cuts; exact Hk|].
  set (q := length ary / k) in *. set (r := length ary mod k) in *.
  split; [|split].
  - rewrite length_cuts, length_app, !repeat_length. lia.
  - rewrite concat_cuts, list_sum_app, !list_sum_repeat.
    unfold slice. cbn [Nat.add skipn]. rewrite Nat.sub_0_r.
    apply firstn_all2. nia.
  - apply cuts_bounded, Forall_app. split; apply Forall_repeat_pos; intros Hr; nia.
Qed.



(** ** Theorems: the fetch stage *)

Section FetchStage.
Variable profile_id : string.
Variable service : endpoint -> exchange.


Lemma kept_app l1 l2 :
  kept profile_id service (l1 ++ l2)
  = kept profile_id service l1 ++ kept profile_id service l2.
Proof. apply flat_map_app. Qed.

Lemma kept_concat chunks :
  kept profile_id service (concat chunks)
  = flat_map (kept profile_id service) chunks.
Proof.
  induction chunks as [|c chunks IH]; [reflexivity|].
  cbn [concat flat_map]. now rewrite kept_app, IH.
Qed.

Lemma tasks_settled chunk :
  Forall (settles profile_id service) chunk ->
  exists urls reports,
    traverse (report_url profile_id) chunk = Ret urls
    /\ first_raise (map fst (map (report_task service) urls)) = None
    /\ all_ret (map fst (map (report_task service) urls)) = Some reports
    /\ filter truthy reports = kept profile_id service chunk.
Proof.
  induction 1 as [|stub chunk [report Hs] _ (urls & reports & Ht & Hr & Ha & Hk)].
  - exists [], []. repeat split.
  - unfold settled in Hs.
    destruct (report_url profile_id stub) as [url| |] eqn:Hu; try discriminate.
    cbn [obind] in Hs. change (fst (report_task service url) = Ret report) in Hs.
    exists (url :: urls), (report :: reports).
    cbn [traverse map]. rewrite Hu, Ht, Hs. cbn [obind first_raise all_ret].
    rewrite Hr, Ha. repeat split.
    unfold kept. cbn [filter flat_map]. fold (kept profile_id service chunk).
    unfold settled. rewrite Hu. cbn [obind].
    rewrite Hs, <- Hk. now destruct (truthy report).
Qed.

Lemma fetch_chunk_settled chunk :
  Forall (settles profile_id service) chunk ->
  exists t, fetch_chunk profile_id service chunk
            = (Ret (kept profile_id service chunk), t).
Proof.
  intros H. destruct (tasks_settled chunk H) as (urls & reports & Ht & Hr & Ha & Hk).
  unfold fetch_chunk, gather. rewrite Ht, Hr, Ha.
  cbn [obind]. rewrite Hk. eauto.
Qed.

Lemma fetch_chunks_settled chunks : forall battlelog_reports,
  Forall (Forall (settles profile_id service)) chunks ->
  exists t, fetch_chunks profile_id service chunks battlelog_reports
            = (Ret (battlelog_reports ++ kept profile_id service (concat chunks)), t).
Proof.
  induction chunks as [|c chunks IH]; intros acc Hall.
  - cbn. rewrite app_nil_r. eauto.
  - inversion Hall as [|? ? Hc Hall']; subst.
    destruct (fetch_chunk_settled c Hc) as [t Ht].
    destruct (IH (acc ++ kept profile_id service c) Hall') as [t2 Ht2].
    cbn [fetch_chunks]. rewrite Ht, Ht2.
    cbn [concat]. rewrite kept_app, app_assoc. eauto.
Qed.

Lemma fetch_all_settled report_list :
  report_list <> [] ->
  Forall (settles profile_id service) report_list ->
  exists chunks t,
    fetch_all profile_id service report_list
    = (Ret (chunks, kept profile_id service report_list), t)
    /\ concat chunks = report_list.
Proof.
  intros Hne Hall.
  destruct (array_split_partition report_list Hne) as (chunks & Hs & _ & Hc & _).
  assert (Forall (Forall (settles profile_id service)) chunks) as Hcs
      by (apply Forall_concat; now rewrite Hc).
  destruct (fetch_chunks_settled chunks [] Hcs) as [t Ht].
  exists chunks, t. unfold fetch_all. rewrite Hs, Ht, Hc. auto.
Qed.

Lemma in_kept stub report l :
  In stub l -> settled profile_id service stub = Ret report ->
  truthy report = true -> In report (kept profile_id service l).
Proof.
  intros Hin Hs Ht. apply in_flat_map. exists stub. split; [exact Hin|].
  rewrite Hs, Ht. now left.
Qed.

Lemma traverse_in {X Y} (f : X -> outcome Y) l : forall bs,
  traverse f l = Ret bs -> forall b, In b bs -> exists a, In a l /\ f a = Ret b.
Proof.
  induction l as [|a l IH]; intros bs H b Hb; cbn in H.
  - inversion H; subst. destruct Hb.
  - destruct (f a) as [b0| |] eqn:Ha; try discriminate. cbn in H.
    destruct (traverse f l) as [bs0| |]; try discriminate. cbn in H.
    inversion H; subst. destruct Hb as [<-|Hb].
    + exists a. split; [now left|exact Ha].
    + destruct (IH bs0 eq_refl b Hb) as (a' & Hin & Ha'). exists a'. split; [now right|exact Ha'].
Qed.

Lemma all_ret_in {X} (os : list (outcome X)) : forall rs,
  all_ret os = Some rs -> forall r, In r rs -> In (Ret r) os.
Proof.
  induction os as [|o os IH]; intros rs H r Hr; cbn in H.
  - inversion H; subst. destruct Hr.
  - destruct o as [a| |]; try discriminate.
    destruct (all_ret os) as [rs0|]; try discriminate. cbn in H.
    inversion H; subst. destruct Hr as [<-|Hr]; [now left|right; eauto].
Qed.

Lemma fetch_chunk_origin chunk reports t :
  fetch_chunk profile_id service chunk = (Ret reports, t) ->
  forall report, In report reports -> fetched_for profile_id service chunk report.
Proof.
  unfold fetch_chunk, gather. intros H report Hin.
  destruct (traverse (report_url profile_id) chunk) as [urls| |] eqn:Hu;
    try discriminate.
  destruct (first_raise (map fst (map (report_task service) urls))); try discriminate.
  destruct (all_ret (map fst (map (report_task service) urls))) as [rs|] eqn:Ha; try discriminate.
  cbn [obind] in H. inversion H; subst.
  apply filter_In in Hin. destruct Hin as [Hin Ht].
  pose proof (all_ret_in _ _ Ha _ Hin) as Hr.
  rewrite map_map in Hr. apply in_map_iff in Hr. destruct Hr as (url & Hr & Hurl).
  destruct (traverse_in _ _ _ Hu _ Hurl) as (stub & Hs & Hsu).
  exists stub, url. auto.
Qed.

Lemma fetch_chunks_origin chunks : forall acc reports t,
  fetch_chunks profile_id service chunks acc = (Ret reports, t) ->
  forall report, In report reports ->
    In report acc \/ fetched_for profile_id service (concat chunks) report.
Proof.
  induction chunks as [|c chunks IH]; intros acc reports t H report Hin;
    cbn [fetch_chunks] in H.
  - inversion H; subst. now left.
  - destruct (fetch_chunk profile_id service c) as [[rs| |] t1] eqn:Hc;
      try discriminate.
    destruct (fetch_chunks profile_id service chunks (acc ++ rs)) as [o t2] eqn:Hcs.
    inversion H; subst.
    destruct (IH _ _ _ Hcs report Hin) as [Hacc|(stub & url & Hs & Hrest)].
    + apply in_app_or in Hacc. destruct Hacc as [Hacc|Hrs]; [now left|right].
      destruct (fetch_chunk_origin _ _ _ Hc _ Hrs) as (stub & url & Hs & Hrest).
      exists stub, url. split; [cbn; apply in_or_app; now left|exact Hrest].
    + right. exists stub, url. split; [cbn; apply in_or_app; now right|exact Hrest].
Qed.

Lemma fetch_all_origin report_list chunks battlelog_reports t :
  fetch_all profile_id service report_list
    = (Ret (chunks, battlelog_reports), t) ->
  concat chunks = report_list
  /\ forall report, In report battlelog_reports -> fetched_for profile_id service report_list report.
Proof.
  unfold fetch_all. intros H.
  destruct report_list as [|s l] eqn:El; [discriminate|]. rewrite <- El in *.
  assert (report_list <> []) as Hne by congruence.
  destruct (array_split_partition report_list Hne) as (cs & Hs & _ & Hc & _).
  rewrite Hs in H.
  destruct (fetch_chunks profile_id service cs []) as [[rs| |] t1] eqn:Hcs;
    try discriminate.
  cbn [obind] in H. inversion H; subst chunks battlelog_reports t.
  split; [exact Hc|]. intros report Hin.
  destruct (fetch_chunks_origin _ _ _ _ Hcs report Hin) as [[]|Hf].
  now rewrite Hc in Hf.
Qed.
End FetchStage.

(** C3: a stub whose request is answered by a 200 without data on each of
    its tries is tried six times, 3 seconds apart, and then given up with
    the empty result.  When the tasks of the other stubs come back, the
    fetch stage comes back too, and its result is made of what the stubs
    before and after contribute: nothing for this stub, and every non-empty
    report of the others. *)
Theorem C3_no_data_record_is_dropped :
  forall profile_id service before stub after url bodies x,
    report_url profile_id stub = Ret url ->
    service url = map ok bodies ++ x ->
    length bodies = 6 ->
    Forall (fun b => truthy b = false) bodies ->
    Forall (fun s => exists r, settled profile_id service s = Ret r) (before ++ after) ->
    battlelogRetrieveReport url (service url)
      = (Ret (JObj []),
         tries 5 [Get url; Print "."; Sleep 3] ++ [Get url; Print "x"])
    /\ exists chunks t,
        fetch_all profile_id service (before ++ stub :: after)
        = (Ret (chunks, kept profile_id service before ++ kept profile_id service after), t)
        /\ forall s r, In s (before ++ after) ->
             settled profile_id service s = Ret r -> truthy r = true ->
             In r (kept profile_id service before ++ kept profile_id service after).
Proof.
  intros profile_id service before stub after url bodies x Hu Hsv Hlen Hnull Hothers.
  assert (battlelogRetrieveReport url (service url)
          = (Ret (JObj []),
             tries 5 [Get url; Print "."; Sleep 3] ++ [Get url; Print "x"])) as Hfail.
  { rewrite Hsv. unfold battlelogRetrieveReport.
    rewrite (retrieve_gives_up url bodies 0 x Hnull); rewrite ?Hlen; auto.
    intros ->. discriminate. }
  split; [exact Hfail|].
  assert (settled profile_id service stub = Ret (JObj [])) as Hstub
      by (unfold settled, report_task; rewrite Hu; cbn [obind]; now rewrite Hfail).
  apply Forall_app in Hothers. destruct Hothers as [Hb Ha].
  destruct (fetch_all_settled profile_id service (before ++ stub :: after))
    as (chunks & t & Hall & _).
  - now destruct before.
  - apply Forall_app. split; [exact Hb|].
    constructor; [exists (JObj []); exact Hstub|exact Ha].
  - exists chunks, t. split.
    + rewrite Hall, kept_app. do 3 f_equal.
      change (kept profile_id service (stub :: after))
        with ((match settled profile_id service stub with
               | Ret report => if truthy report then [report] else []
               | _ => []
               end) ++ kept profile_id service after).
      now rewrite Hstub.
    + intros s r Hin Hs Ht. rewrite <- kept_app. eapply in_kept; eauto.
Qed.

Lemma C3_no_data_record_is_dropped_witness :
  battlelogRetrieveReport (GeneralReport (JStr "2") "7")
    (sample_service (GeneralReport (JStr "2") "7"))
  = (Ret (JObj []),
     tries 5 [Get (GeneralReport (JStr "2") "7"); Print "."; Sleep 3]
       ++ [Get (GeneralReport (JStr "2") "7"); Print "x"])
  /\ exists chunks t,
      fetch_all "7" sample_service
        ([sample_stub "1" 30] ++ sample_stub "2" 20 :: [sample_stub "3" 10])
      = (Ret (chunks, kept "7" sample_service [sample_stub "1" 30]
                        ++ kept "7" sample_service [sample_stub "3" 10]), t)
      /\ forall s r, In s ([sample_stub "1" 30] ++ [sample_stub "3" 10]) ->
           settled "7" sample_service s = Ret r -> truthy r = true ->
           In r (kept "7" sample_service [sample_stub "1" 30]
                   ++ kept "7" sample_service [sample_stub "3" 10]).
Proof.
  apply (C3_no_data_record_is_dropped "7" sample_service
           [sample_stub "1" 30] (sample_stub "2" 20) [sample_stub "3" 10]
           (GeneralReport (JStr "2") "7") (repeat JNull 6) [ok JNull]).
  - reflexivity.
  - reflexivity.
  - reflexivity.
  - repeat constructor.
  - repeat constructor; eexists; reflexivity.
Defined.

(** C6, as the code has it: when the fetch stage comes back, each detail
    in its result is the non-empty report that the task of some stub of the
    input returned for that stub's url, and the chunks put end to end are
    the input.  The stage never reads a detail's [id]: the id is the
    stub's [gameReportId] whenever the service answers a report request
    with a document that carries the requested id. *)
Theorem C6_details_come_from_stubs :
  forall profile_id service report_list chunks battlelog_reports t,
    fetch_all profile_id service report_list = (Ret (chunks, battlelog_reports), t) ->
    concat chunks = report_list
    /\ (forall detail, In detail battlelog_reports ->
          exists stub url,
            In stub report_list
            /\ report_url profile_id stub = Ret url
            /\ fst (battlelogRetrieveReport url (service url)) = Ret detail
            /\ truthy detail = true)
    /\ ((forall id detail,
            fst (battlelogRetrieveReport (GeneralReport id profile_id)
                   (service (GeneralReport id profile_id))) = Ret detail ->
            truthy detail = true -> subscript detail "id" = Ret id) ->
        forall detail, In detail battlelog_reports ->
          exists stub, In stub report_list
                       /\ subscript detail "id" = subscript stub "gameReportId").
Proof.
  intros profile_id service report_list chunks battlelog_reports t H.
  destruct (fetch_all_origin _ _ _ _ _ _ H) as [Hc Horigin].
  split; [exact Hc|]. split; [exact Horigin|].
  intros Hecho detail Hin.
  destruct (Horigin detail Hin) as (stub & url & Hs & Hu & Hr & Ht).
  exists stub. split; [exact Hs|].
  unfold report_url in Hu.
  destruct (subscript stub "gameReportId") as [id| |]; try discriminate.
  cbn [obind] in Hu. inversion Hu; subst url.
  now rewrite (Hecho id detail Hr Ht).
Qed.

Lemma C6_details_come_from_stubs_witness :
  concat [[sample_stub "1" 30; sample_stub "3" 10]]
    = [sample_stub "1" 30; sample_stub "3" 10]
  /\ (forall detail, In detail [sample_detail "1"; sample_detail "3"] ->
        exists stub url,
          In stub [sample_stub "1" 30; sample_stub "3" 10]
          /\ report_url "7" stub = Ret url
          /\ fst (battlelogRetrieveReport url (sample_service url)) = Ret detail
          /\ truthy detail = true)
  /\ ((forall id detail,
          fst (battlelogRetrieveReport (GeneralReport id "7")
                 (sample_service (GeneralReport id "7"))) = Ret detail ->
          truthy detail = true -> subscript detail "id" = Ret id) ->
      forall detail, In detail [sample_detail "1"; sample_detail "3"] ->
        exists stub, In stub [sample_stub "1" 30; sample_stub "3" 10]
                     /\ subscript detail "id" = subscript stub "gameReportId").
Proof.
  apply (C6_details_come_from_stubs "7" sample_service
           [sample_stub "1" 30; sample_stub "3" 10]
           [[sample_stub "1" 30; sample_stub "3" 10]]
           [sample_detail "1"; sample_detail "3"]
           (snd (fetch_all "7" sample_service [sample_stub "1" 30; sample_stub "3" 10]))).
  vm_compute. reflexivity.
Defined.

(** C6 as stated fails: the stage keeps whatever non-empty document the
    service returns.  Asked for report 1, a service that answers with
    report 999 puts a detail with id 999 into the result, an id that no
    stub of the input has. *)
Lemma C6_counterexample :
  fst (fetch_all "7" stray_service [sample_stub "1" 30])
    = Ret ([[sample_stub "1" 30]], [sample_detail "999"])
  /\ subscript (sample_detail "999") "id" = Ret (JStr "999")
  /\ ~ In (Ret (JStr "999"))
          (map (fun stub => subscript stub "gameReportId") [sample_stub "1" 30]).
Proof.
  repeat split. intros [H|[]]. discriminate H.
Qed.

(** ** Theorems: enumeration *)

Lemma repeat_snoc {T} (a : T) n l : repeat a n ++ a :: l = repeat a (S n) ++ l.
Proof. induction n as [|n IH]; cbn; [reflexivity|]. now rewrite IH. Qed.

Lemma starts_with_six n l :
  6 <= n -> starts_with_empties 6 (repeat [] n ++ l) = true.
Proof.
  intros Hn. replace n with (6 + (n - 6)) by lia.
  rewrite repeat_app, <- app_assoc. reflexivity.
Qed.

Lemma empty_run_six n l : 6 <= n -> empty_run 6 (repeat [] n ++ l) = true.
Proof.
  intros Hn. destruct (repeat [] n ++ l) eqn:E; cbn [empty_run];
    rewrite <- E, starts_with_six by exact Hn; reflexivity.
Qed.

Lemma empty_run_suffix k a : forall b,
  empty_run k (a ++ b) = false -> empty_run k b = false.
Proof.
  induction a as [|p a IH]; intros b H; [exact H|].
  cbn [app empty_run] in H. apply orb_false_iff in H. apply IH, H.
Qed.

Lemma starts_with_empties_app k a b :
  starts_with_empties k a = true -> starts_with_empties k (a ++ b) = true.
Proof.
  unfold starts_with_empties. intros H.
  apply andb_true_iff in H. destruct H as [Hl Hf]. apply Nat.leb_le in Hl.
  apply andb_true_iff. split.
  - apply Nat.leb_le. rewrite length_app. lia.
  - rewrite firstn_app. replace (k - length a) with 0 by lia.
    cbn [firstn]. now rewrite app_nil_r.
Qed.

Lemma empty_run_prefix k a : forall b,
  empty_run k (a ++ b) = false -> empty_run k a = false.
Proof.
  induction a as [|p a IH]; intros b H.
  - cbn [empty_run]. rewrite orb_false_r.
    destruct (starts_with_empties k []) eqn:E; [|reflexivity].
    apply (starts_with_empties_app k [] b) in E. cbn [app] in *.
    destruct b; cbn [empty_run] in H; rewrite E in H; discriminate H.
  - cbn [app empty_run] in H. apply orb_false_iff in H. destruct H as [H1 H2].
    cbn [empty_run]. apply orb_false_iff. split; [|eapply IH, H2].
    destruct (starts_with_empties k (p :: a)) eqn:E; [|reflexivity].
    apply (starts_with_empties_app k (p :: a) b) in E.
    cbn [app] in E. congruence.
Qed.

Section Enumeration.
Variable profile_id : string.

Lemma cursor_dated report_list :
  report_list <> [] -> Forall dated report_list ->
  exists v, obind (last_item report_list) (fun s => subscript s "createdAt") = Ret v.
Proof.
  intros Hne Hall. unfold last_item.
  destruct (rev report_list) as [|s l] eqn:E.
  - apply (f_equal (@rev json)) in E. rewrite rev_involutive in E. now cbn in E.
  - assert (In s report_list) as Hin by (apply in_rev; rewrite E; now left).
    rewrite Forall_forall in Hall. destruct (Hall s Hin) as [v Hv].
    exists v. exact Hv.
Qed.

Lemma page_step_empty report_list n x w :
  report_list <> [] -> Forall dated report_list -> delivers x [] ->
  exists t,
    page_step profile_id report_list n (x :: w)
    = (Ret (if 5 <=? n then Break else Continue report_list (S n)), w, t).
Proof.
  intros Hne Hall (reports & Hf & Hp).
  destruct (cursor_dated report_list Hne Hall) as [v Hv].
  destruct (Hf (ReportsMore profile_id v)) as [t Ht].
  unfold page_step, bind, lift, battlelogApiFetch. rewrite Hv, Ht, Hp.
  cbn [truthy negb andb]. destruct (5 <=? n); cbn; eauto.
Qed.

Lemma page_step_items report_list n x w item items :
  report_list <> [] -> Forall dated report_list -> delivers x (item :: items) ->
  exists t,
    page_step profile_id report_list n (x :: w)
    = (Ret (Continue (report_list ++ item :: items) 0), w, t).
Proof.
  intros Hne Hall (reports & Hf & Hp).
  destruct (cursor_dated report_list Hne Hall) as [v Hv].
  destruct (Hf (ReportsMore profile_id v)) as [t Ht].
  unfold page_step, bind, lift, battlelogApiFetch. rewrite Hv, Ht, Hp.
  cbn [truthy negb andb slice_all]. cbn. eauto.
Qed.

Lemma more_reports_empty report_list n x w :
  report_list <> [] -> Forall dated report_list -> delivers x [] ->
  fst (more_reports profile_id report_list n (x :: w))
  = if 5 <=? n then (Ret report_list, w)
    else fst (more_reports profile_id report_list (S n) w).
Proof.
  intros Hne Hall Hx.
  destruct (page_step_empty report_list n x w Hne Hall Hx) as [t Ht].
  cbn [more_reports]. rewrite Ht. destruct (5 <=? n); [reflexivity|].
  now destruct (more_reports profile_id report_list (S n) w) as [[o w2] t2].
Qed.

Lemma more_reports_items report_list n x w item items :
  report_list <> [] -> Forall dated report_list -> delivers x (item :: items) ->
  fst (more_reports profile_id report_list n (x :: w))
  = fst (more_reports profile_id (report_list ++ item :: items) 0 w).
Proof.
  intros Hne Hall Hx.
  destruct (page_step_items report_list n x w item items Hne Hall Hx) as [t Ht].
  cbn [more_reports]. rewrite Ht.
  now destruct (more_reports profile_id (report_list ++ item :: items) 0 w)
    as [[o w2] t2].
Qed.

Lemma more_reports_starved report_list n :
  report_list <> [] -> Forall dated report_list ->
  fst (more_reports profile_id report_list n []) = (Starved, []).
Proof.
  intros Hne Hall. destruct (cursor_dated report_list Hne Hall) as [v Hv].
  cbn [more_reports]. unfold page_step, bind, lift, battlelogApiFetch.
  rewrite Hv. reflexivity.
Qed.
End Enumeration.

Lemma Forall2_firstn {X Y} (R : X -> Y -> Prop) k : forall l1 l2,
  Forall2 R l1 l2 -> Forall2 R (firstn k l1) (firstn k l2).
Proof.
  induction k as [|k IH]; intros l1 l2 H; [constructor|].
  destruct H; cbn [firstn]; constructor; auto.
Qed.

Lemma Forall_firstn_of {X} (P : X -> Prop) k (l : list X) :
  Forall P l -> Forall P (firstn k l).
Proof.
  intros H. rewrite <- (firstn_skipn k l) in H. now apply Forall_app in H.
Qed.

Section EnumerationLoop.
Variable profile_id : string.

Lemma loop_keeps_asking pages w :
  Forall2 delivers w pages ->
  forall report_list n,
    report_list <> [] -> Forall dated report_list ->
    Forall (Forall dated) pages ->
    empty_run 6 (repeat [] n ++ pages) = false ->
    fst (more_reports profile_id report_list n w) = (Starved, []).
Proof.
  induction 1 as [|x page w pages Hx _ IH]; intros rl n Hne Hrl Hpages Hrun.
  - now apply more_reports_starved.
  - inversion Hpages as [|? ? Hpage Hpages']; subst.
    destruct page as [|item items].
    + rewrite more_reports_empty by assumption.
      rewrite repeat_snoc in Hrun.
      destruct (Nat.leb_spec 5 n) as [Hn|Hn].
      * rewrite empty_run_six in Hrun by lia. discriminate Hrun.
      * now apply IH.
    + rewrite (more_reports_items profile_id rl n x w item items) by assumption.
      apply IH; try assumption.
      * intros E. apply app_eq_nil in E. destruct E as [_ E]. discriminate E.
      * apply Forall_app. now split.
      * apply (empty_run_suffix 6 (repeat [] n ++ [item :: items])).
        now rewrite <- app_assoc.
Qed.

Lemma empties_finish report_list count : forall w6 n rest,
  Forall2 delivers w6 (repeat [] count) ->
  report_list <> [] -> Forall dated report_list ->
  0 < count -> n + count = 6 ->
  fst (more_reports profile_id report_list n (w6 ++ rest)) = (Ret report_list, rest).
Proof.
  induction count as [|count IH]; intros w6 n rest Hw Hne Hrl Hpos Hsum; [lia|].
  cbn [repeat] in Hw. inversion Hw as [|x ? w6' ? Hx Hw']; subst.
  cbn [app]. rewrite more_reports_empty by assumption.
  destruct count as [|count'].
  - replace n with 5 by lia. inversion Hw'; subst. reflexivity.
  - destruct (Nat.leb_spec 5 n) as [Hn|Hn]; [lia|].
    apply IH; auto; lia.
Qed.

Lemma loop_stops pre w :
  Forall2 delivers w pre ->
  forall w6 rest report_list n,
    Forall2 delivers w6 (repeat [] 6) ->
    report_list <> [] -> Forall dated report_list ->
    Forall (Forall dated) pre ->
    empty_run 6 (repeat [] n ++ pre ++ repeat [] 5) = false ->
    fst (more_reports profile_id report_list n (w ++ w6 ++ rest))
    = (Ret (report_list ++ concat pre), rest).
Proof.
  induction 1 as [|x page w pre Hx _ IH];
    intros w6 rest rl n Hw6 Hne Hrl Hpre Hrun.
  - cbn [app concat] in *. rewrite app_nil_r.
    destruct n as [|n].
    + apply (empties_finish rl 6); auto; lia.
    + rewrite <- repeat_app, <- (app_nil_r (repeat [] (S n + 5))) in Hrun.
      rewrite empty_run_six in Hrun by lia. discriminate Hrun.
  - inversion Hpre as [|? ? Hpage Hpre']; subst.
    cbn [app concat] in *. destruct page as [|item items].
    + rewrite more_reports_empty by assumption.
      rewrite repeat_snoc in Hrun.
      destruct (Nat.leb_spec 5 n) as [Hn|Hn].
      * rewrite empty_run_six in Hrun by lia. discriminate Hrun.
      * now apply IH.
    + rewrite (more_reports_items profile_id rl n x (w ++ w6 ++ rest) item items)
        by assumption.
      rewrite (app_assoc rl). apply IH; try assumption.
      * intros E. apply app_eq_nil in E. destruct E as [_ E]. discriminate E.
      * apply Forall_app. now split.
      * apply (empty_run_suffix 6 (repeat [] n ++ [item :: items])).
        now rewrite <- app_assoc.
Qed.
End EnumerationLoop.

(** C1, as the code has it: the pagination loop tests the counter before
    it adds to it, so it leaves on the sixth empty page in a row.  On pages
    whose first run of six empty pages is at their end, the loop returns
    when it has read them all, with the stubs it started from followed by
    the stubs of the pages in order; stopped anywhere before, it is still
    asking for the next page.  Empty pages that a non-empty page follows
    do not count towards the six. *)
Theorem C1_enumeration_stops_on_sixth_empty_page :
  forall profile_id report_list pre w,
    report_list <> [] ->
    Forall dated (report_list ++ concat pre) ->
    Forall2 delivers w (pre ++ repeat [] 6) ->
    empty_run 6 (pre ++ repeat [] 5) = false ->
    (forall rest,
        fst (more_reports profile_id report_list 0 (w ++ rest))
        = (Ret (report_list ++ concat pre), rest))
    /\ (forall k, k < length w ->
          fst (more_reports profile_id report_list 0 (firstn k w)) = (Starved, [])).
Proof.
  intros profile_id rl pre w Hne Hdated Hw Hrun.
  apply Forall_app in Hdated. destruct Hdated as [Hrl Hpre].
  apply Forall_concat in Hpre.
  split.
  - intros rest.
    destruct (Forall2_app_inv_r _ _ Hw) as (w1 & w6 & H1 & H6 & ->).
    rewrite <- app_assoc. now apply loop_stops.
  - intros k Hk.
    pose proof (Forall2_length Hw) as Hlen.
    rewrite length_app, repeat_length in Hlen.
    apply (loop_keeps_asking profile_id (firstn k (pre ++ repeat [] 6)));
      try assumption.
    + now apply Forall2_firstn.
    + apply Forall_firstn_of, Forall_app. split; [exact Hpre|].
      repeat constructor.
    + change (empty_run 6 (firstn k (pre ++ (repeat [] 5 ++ [[]]))) = false).
      rewrite app_assoc, firstn_app, length_app, repeat_length.
      replace (k - (length pre + 5)) with 0 by lia.
      cbn [firstn]. rewrite app_nil_r.
      apply (empty_run_prefix 6 _ (skipn k (pre ++ repeat [] 5))).
      now rewrite firstn_skipn.
Qed.

Lemma C1_enumeration_stops_on_sixth_empty_page_witness :
  (forall rest,
      fst (more_reports "7" [sample_stub "1" 30] 0
             ((repeat empty_page 4 ++ [[ok (sample_page [sample_stub "2" 20])]]
                 ++ repeat empty_page 6) ++ rest))
      = (Ret ([sample_stub "1" 30]
                ++ concat (repeat [] 4 ++ [[sample_stub "2" 20]])), rest))
  /\ (forall k,
        k < length (repeat empty_page 4 ++ [[ok (sample_page [sample_stub "2" 20])]]
                      ++ repeat empty_page 6) ->
        fst (more_reports "7" [sample_stub "1" 30] 0
               (firstn k (repeat empty_page 4
                            ++ [[ok (sample_page [sample_stub "2" 20])]]
                            ++ repeat empty_page 6)))
        = (Starved, [])).
Proof.
  apply (C1_enumeration_stops_on_sixth_empty_page "7" [sample_stub "1" 30]
           (repeat [] 4 ++ [[sample_stub "2" 20]])
           (repeat empty_page 4 ++ [[ok (sample_page [sample_stub "2" 20])]]
              ++ repeat empty_page 6)).
  - discriminate.
  - repeat constructor; eexists; reflexivity.
  - repeat constructor; eexists; (split; [intros ep; eexists; reflexivity|reflexivity]).
  - reflexivity.
Defined.

(** C1 as stated fails on the sequence of four empty pages, a page with
    one stub and five empty pages: after the fifth empty page in a row the
    loop has not returned, it asks for a further page; it returns on a
    sixth empty page, and a stub that comes instead is taken in. *)
Lemma C1_counterexample :
  fst (more_reports "7" [sample_stub "1" 30] 0
         (repeat empty_page 4 ++ [[ok (sample_page [sample_stub "2" 20])]]
            ++ repeat empty_page 5))
    = (Starved, [])
  /\ fst (more_reports "7" [sample_stub "1" 30] 0
            (repeat empty_page 4 ++ [[ok (sample_page [sample_stub "2" 20])]]
               ++ repeat empty_page 5 ++ [empty_page]))
     = (Ret [sample_stub "1" 30; sample_stub "2" 20], [])
  /\ fst (more_reports "7" [sample_stub "1" 30] 0
            (repeat empty_page 4 ++ [[ok (sample_page [sample_stub "2" 20])]]
               ++ repeat empty_page 5
               ++ [[ok (sample_page [sample_stub "3" 10])]]
               ++ repeat empty_page 6))
     = (Ret [sample_stub "1" 30; sample_stub "2" 20; sample_stub "3" 10], []).
Proof. repeat split. Qed.

(** C2, what the code does on a profile without reports: the first page
    brings no stub, the loop then takes the last stub of the empty list and
    raises [IndexError] before it has asked for any further page, and the
    run ends there with status 1.  Handed the empty list, the fetch stage
    asks [array_split] for zero sections and raises [ValueError]. *)
Theorem C2_empty_profile_raises :
  forall profile_name profile_id service w,
    enumerate profile_name profile_id (empty_page :: w)
      = (Raise IndexError, w, [Get (Reports profile_id)])
    /\ fetch_all profile_id service [] = (Raise ValueError, [])
    /\ fst (main "Brisppy" service (sample_metadata ++ empty_page :: w))
       = (Raise IndexError, w)
    /\ exit_status (fst (fst (main "Brisppy" service
                                (sample_metadata ++ empty_page :: w))))
       = Some 1%Z.
Proof.
  intros profile_name profile_id service w.
  destruct w as [|x w]; repeat split.
Qed.

(** C8, what the code writes: by the time of the write step [report_list]
    is bound to the result of [array_split].  With 21 stubs enumerated the
    one thing written to [report_list.json] is the list of two arrays, of
    11 and of 10 stubs, not the list of the 21 stubs. *)
Theorem C8_report_list_is_written_in_chunks :
  fst (fst (main "Brisppy" ready_service
              (sample_metadata ++ [ok (sample_page (sample_stubs 21))]
                 :: repeat empty_page 6)))
    = Ret tt
  /\ written "report_list.json"
       (snd (main "Brisppy" ready_service
               (sample_metadata ++ [ok (sample_page (sample_stubs 21))]
                  :: repeat empty_page 6)))
     = [Arrays [firstn 11 (sample_stubs 21); skipn 11 (sample_stubs 21)]]
  /\ Arrays [firstn 11 (sample_stubs 21); skipn 11 (sample_stubs 21)]
     <> Docs (sample_stubs 21).
Proof.
  split; [|split].
  - vm_compute. reflexivity.
  - vm_compute. reflexivity.
  - discriminate.
Qed.

(** ** Theorems: traces without the 403 line *)

Lemma clean_nil : clean [].
Proof. intros []. Qed.

Lemma clean_app t1 t2 : clean t1 -> clean t2 -> clean (t1 ++ t2).
Proof. unfold clean. intros H1 H2 H. apply in_app_or in H. tauto. Qed.

Lemma clean_cons e t : e <> Print E403 -> clean t -> clean (e :: t).
Proof. unfold clean. intros He Ht [H|H]; auto. Qed.

Lemma clean_concat ts : Forall clean ts -> clean (concat ts).
Proof.
  induction 1 as [|t ts Ht _ IH]; [apply clean_nil|]. now apply clean_app.
Qed.

Ltac other_event := unfold E403; cbn [String.append]; discriminate.
Ltac clean_trace :=
  repeat first [ apply clean_nil
               | apply clean_cons; [other_event|]
               | apply clean_app ].

Lemma retrieve_clean url : forall x attempt, clean (snd (retrieve_from url attempt x)).
Proof.
  induction x as [|r x IH]; intros attempt; cbn [retrieve_from].
  - apply clean_nil.
  - specialize (IH (S attempt)).
    destruct (retrieve_from url (S attempt) x) as [o t]. cbn [snd] in IH.
    destruct r as [status body|e].
    + destruct (status =? 200)%Z; [|cbn [snd]; clean_trace; exact IH].
      destruct body as [report|]; [|cbn [snd]; clean_trace].
      destruct (truthy report && text_not_null report); [cbn [snd]; clean_trace|].
      destruct (6 <=? S attempt); cbn [snd]; clean_trace. exact IH.
    + destruct e; cbn [snd]; clean_trace; exact IH.
Qed.

Lemma fetch_chunk_clean profile_id service chunk :
  clean (snd (fetch_chunk profile_id service chunk)).
Proof.
  unfold fetch_chunk.
  destruct (traverse (report_url profile_id) chunk) as [urls| |];
    try apply clean_nil.
  unfold gather. cbn [snd]. apply clean_concat.
  rewrite map_map. apply Forall_forall. intros t Ht.
  apply in_map_iff in Ht. destruct Ht as (url & <- & _).
  apply retrieve_clean.
Qed.

Lemma fetch_chunks_clean profile_id service chunks : forall acc,
  clean (snd (fetch_chunks profile_id service chunks acc)).
Proof.
  induction chunks as [|c chunks IH]; intros acc; cbn [fetch_chunks].
  - apply clean_nil.
  - pose proof (fetch_chunk_clean profile_id service c) as Hc.
    destruct (fetch_chunk profile_id service c) as [[rs|e|] t]; try exact Hc.
    specialize (IH (acc ++ rs)).
    destruct (fetch_chunks profile_id service chunks (acc ++ rs)) as [o t2].
    now apply clean_app.
Qed.

Lemma fetch_all_clean profile_id service report_list :
  clean (snd (fetch_all profile_id service report_list)).
Proof.
  unfold fetch_all.
  destruct (array_split report_list (sections_for (length report_list)))
    as [chunks|e|]; try apply clean_nil.
  pose proof (fetch_chunks_clean profile_id service chunks []) as H.
  now destruct (fetch_chunks profile_id service chunks []) as [o t].
Qed.

Lemma write_reports_clean reports : clean (snd (write_reports reports)).
Proof.
  induction reports as [|r reports IH]; cbn [write_reports]; [apply clean_nil|].
  destruct (subscript r "id") as [id|e|]; try apply clean_nil.
  destruct (write_reports reports) as [o t]. cbn [snd] in *. clean_trace. exact IH.
Qed.

(** ** Further properties: the blocking fetcher *)

Lemma fetch_tries_504s ep bodies x :
  fetch_tries ep (map (Response 504) bodies ++ x)
  = (fst (fetch_tries ep x),
     tries (length bodies) [Get ep; Sleep 5] ++ snd (fetch_tries ep x)).
Proof.
  induction bodies as [|b bodies IH].
  - cbn. now destruct (fetch_tries ep x).
  - cbn [map app fetch_tries length]. change (504 =? 504)%Z with true.
    cbv iota. now rewrite IH.
Qed.

(** X1: a 504 is slept on for 5 seconds and tried again, as often as it
    comes: after any number of them the first other reply that is no 403
    decides the call, and while only 504s come the call does not return. *)
Theorem X1_fetch_retries_every_504 :
  forall ep bodies status body x w,
    status <> 504%Z -> status <> 403%Z ->
    battlelogApiFetch ep ((map (Response 504) bodies ++ Response status body :: x) :: w)
    = (Ret (match body with Some j => j | None => JObj [] end), w,
       tries (length bodies) [Get ep; Sleep 5] ++ [Get ep])
    /\ battlelogApiFetch ep (map (Response 504) bodies :: w)
       = (Starved, w, tries (length bodies) [Get ep; Sleep 5]).
Proof.
  intros ep bodies status body x w H1 H2.
  apply Z.eqb_neq in H1, H2. unfold battlelogApiFetch. split.
  - rewrite fetch_tries_504s. cbn [fetch_tries]. now rewrite H1, H2.
  - rewrite <- (app_nil_r (map (Response 504) bodies)), fetch_tries_504s.
    cbn [fetch_tries fst snd]. now rewrite !app_nil_r.
Qed.

Lemma X1_fetch_retries_every_504_witness :
  battlelogApiFetch (Weapons "7")
    ((map (Response 504) [None; None; None] ++ Response 200 (Some (JNum 1)) :: []) :: [])
  = (Ret (JNum 1), [], tries 3 [Get (Weapons "7"); Sleep 5] ++ [Get (Weapons "7")])
  /\ battlelogApiFetch (Weapons "7") (map (Response 504) [None; None; None] :: [])
     = (Starved, [], tries 3 [Get (Weapons "7"); Sleep 5]).
Proof.
  apply (X1_fetch_retries_every_504 (Weapons "7") [None; None; None] 200%Z
           (Some (JNum 1)) [] []); lia.
Defined.

(** X2: an exception of the HTTP client is not retried: the call prints
    the two error lines and exits with status 1, also when 504s came
    before it. *)
Theorem X2_fetch_exits_on_client_exception :
  forall ep bodies e x w,
    battlelogApiFetch ep ((map (Response 504) bodies ++ Broken e :: x) :: w)
    = (Raise (SystemExit 1), w,
       tries (length bodies) [Get ep; Sleep 5] ++ [Get ep; Print EAPI; PrintError e])
    /\ exit_status (A := json) (Raise (SystemExit 1)) = Some 1%Z.
Proof.
  intros ep bodies e x w. unfold battlelogApiFetch.
  rewrite fetch_tries_504s. split; reflexivity.
Qed.

Lemma fetch_tries_raises ep x : forall e t,
  fetch_tries ep x = (Raise e, t) -> e = SystemExit 1.
Proof.
  induction x as [|[status body|e0] x IH]; intros e t H; cbn [fetch_tries] in H.
  - discriminate H.
  - destruct (status =? 504)%Z.
    + destruct (fetch_tries ep x) as [o t']. inversion H; subst. eauto.
    + destruct (status =? 403)%Z; inversion H; reflexivity.
  - inversion H; reflexivity.
Qed.

Lemma fetch_tries_requests ep x : requests (snd (fetch_tries ep x)) <= length x.
Proof.
  induction x as [|[status body|e0] x IH]; cbn [fetch_tries]; [cbn; lia| |cbn; lia].
  destruct (status =? 504)%Z.
  - destruct (fetch_tries ep x) as [o t']. cbn [snd] in *.
    change (requests (Get ep :: Sleep 5 :: t')) with (S (requests t')).
    cbn [length]. lia.
  - destruct (status =? 403)%Z; cbn; lia.
Qed.

(** X3: whatever the service does, the only exception that leaves
    [battlelogApiFetch] is [SystemExit 1]; the call uses up one exchange
    and makes at most one request per reply of it. *)
Theorem X3_fetch_raises_only_system_exit :
  forall ep x w o w' t,
    battlelogApiFetch ep (x :: w) = (o, w', t) ->
    (forall e, o = Raise e -> e = SystemExit 1)
    /\ w' = w
    /\ requests t <= length x.
Proof.
  intros ep x w o w' t H. unfold battlelogApiFetch in H.
  pose proof (fetch_tries_requests ep x) as Hr.
  destruct (fetch_tries ep x) as [o0 t0] eqn:E. inversion H; subst.
  repeat split; auto. intros e ->. eapply fetch_tries_raises, E.
Qed.

Lemma X3_fetch_raises_only_system_exit_witness :
  (forall e, Raise (A := json) (SystemExit 1) = Raise e -> e = SystemExit 1)
  /\ @nil exchange = []
  /\ requests [Get (User "Brisppy"); Sleep 5; Get (User "Brisppy");
               Print EAPI; PrintError ClientError] <= 2.
Proof.
  apply (X3_fetch_raises_only_system_exit (User "Brisppy")
           [Response 504 None; Broken ClientError] []).
  reflexivity.
Defined.

(** ** Further properties: pages without a report list *)

(** X4: when the first page is an object without [data] or without
    [gameReports], the run prints the hidden-reports line and exits with
    status 1.  A first page whose body does not decode comes back from the
    fetcher as the empty object and ends the same way. *)
Theorem X4_first_page_without_list_exits :
  forall profile_name profile_id x w reports,
    answers x reports ->
    game_reports reports = Raise KeyError ->
    (exists t, first_page profile_name profile_id (x :: w)
               = (Raise (SystemExit 1), w,
                  t ++ [Print (hidden_reports_line profile_name profile_id)]))
    /\ first_page profile_name profile_id ([Response 200 None] :: w)
       = (Raise (SystemExit 1), w,
          [Get (Reports profile_id);
           Print (hidden_reports_line profile_name profile_id)]).
Proof.
  intros profile_name profile_id x w reports Hx Hk. split; [|reflexivity].
  destruct (Hx (Reports profile_id)) as [t Ht]. exists t.
  unfold first_page, bind, battlelogApiFetch. rewrite Ht, Hk. reflexivity.
Qed.

Lemma X4_first_page_without_list_exits_witness :
  (exists t, first_page "Brisppy" "7" ([ok (JObj [("data", JObj [])])] :: [])
             = (Raise (SystemExit 1), [],
                t ++ [Print (hidden_reports_line "Brisppy" "7")]))
  /\ first_page "Brisppy" "7" ([Response 200 None] :: [])
     = (Raise (SystemExit 1), [],
        [Get (Reports "7"); Print (hidden_reports_line "Brisppy" "7")]).
Proof.
  apply (X4_first_page_without_list_exits "Brisppy" "7"
           [ok (JObj [("data", JObj [])])] [] (JObj [("data", JObj [])])).
  - intros ep. eexists. reflexivity.
  - reflexivity.
Defined.

(** X5: on a later page nothing catches the exception: a page without
    [data] or [gameReports] (or one whose body does not decode) makes the
    loop raise, [KeyError] for a missing key, and the stubs gathered so far
    are not returned. *)
Theorem X5_later_page_without_list_raises :
  forall profile_id report_list n x w reports e,
    report_list <> [] -> Forall dated report_list ->
    answers x reports ->
    game_reports reports = Raise e ->
    fst (more_reports profile_id report_list n (x :: w)) = (Raise e, w)
    /\ fst (more_reports profile_id report_list n ([Response 200 None] :: w))
       = (Raise KeyError, w).
Proof.
  intros profile_id rl n x w reports e Hne Hall Hx He.
  destruct (cursor_dated rl Hne Hall) as [v Hv].
  split.
  - destruct (Hx (ReportsMore profile_id v)) as [t Ht].
    cbn [more_reports]. unfold page_step, bind, lift, battlelogApiFetch.
    rewrite Hv, Ht, He. reflexivity.
  - cbn [more_reports]. unfold page_step, bind, lift, battlelogApiFetch.
    rewrite Hv. reflexivity.
Qed.

Lemma X5_later_page_without_list_raises_witness :
  fst (more_reports "7" [sample_stub "1" 30] 3 ([ok (JList [])] :: []))
    = (Raise TypeError, [])
  /\ fst (more_reports "7" [sample_stub "1" 30] 3 ([Response 200 None] :: []))
     = (Raise KeyError, []).
Proof.
  apply (X5_later_page_without_list_raises "7" [sample_stub "1" 30] 3
           [ok (JList [])] [] (JList []) TypeError).
  - discriminate.
  - repeat constructor. eexists. reflexivity.
  - intros ep. eexists. reflexivity.
  - reflexivity.
Defined.

(** ** Further properties: what enumeration returns *)

Lemma page_step_returns profile_id report_list n w s w1 t :
  page_step profile_id report_list n w = (Ret s, w1, t) ->
  report_list <> []
  /\ match s with
     | Break => True
     | Continue report_list' _ => exists items, report_list' = report_list ++ items
     end.
Proof.
  unfold page_step, bind, lift, ret, say, emit, battlelogApiFetch. intros H.
  split.
  - intros ->. cbn in H. discriminate H.
  - destruct (obind (last_item report_list) (fun s0 => subscript s0 "createdAt"))
      as [v| |]; try discriminate H.
    destruct w as [|x w]; [discriminate H|].
    destruct (fetch_tries (ReportsMore profile_id v) x) as [[reports| |] t0];
      try discriminate H.
    destruct (game_reports reports) as [page| |]; try discriminate H.
    destruct (negb (truthy page) && (5 <=? n)).
    + inversion H; subst. exact I.
    + destruct (negb (truthy page)).
      * inversion H; subst. exists []. now rewrite app_nil_r.
      * destruct (slice_all page) as [items| |]; try discriminate H.
        inversion H; subst. now exists items.
Qed.

Lemma more_reports_extends :
  forall profile_id w report_list n report_list' w' t,
    more_reports profile_id report_list n w = (Ret report_list', w', t) ->
    report_list' <> []
    /\ exists items, report_list' = report_list ++ items.
Proof.
  intros profile_id. induction w as [|x w IH]; intros rl n rl' w' t H;
    cbn [more_reports] in H.
  - destruct (page_step profile_id rl n []) as [[[s|e|] w1] t1]; discriminate H.
  - destruct (page_step profile_id rl n (x :: w)) as [[[s|e|] w1] t1] eqn:E;
      try discriminate H.
    destruct (page_step_returns _ _ _ _ _ _ _ E) as [Hne Hs].
    destruct s as [|rl1 n1].
    + inversion H; subst. split; [exact Hne|]. exists []. now rewrite app_nil_r.
    + destruct Hs as [items ->].
      destruct (more_reports profile_id (rl ++ items) n1 w) as [[o w2] t2] eqn:E2.
      inversion H; subst.
      destruct (IH _ _ _ _ _ E2) as [Hne' [items' ->]].
      split; [exact Hne'|]. exists (items ++ items'). now rewrite app_assoc.
Qed.

(** X6: the pagination loop only ever appends.  When it returns, the list
    it returns starts with the list it was entered with, and is not empty. *)
Theorem X6_loop_returns_an_extension :
  forall profile_id w report_list n report_list' w' t,
    more_reports profile_id report_list n w = (Ret report_list', w', t) ->
    report_list' <> []
    /\ exists items, report_list' = report_list ++ items.
Proof.
  intros profile_id w rl n rl' w' t H. exact (more_reports_extends _ _ _ _ _ _ _ H).
Qed.

Lemma X6_loop_returns_an_extension_witness :
  [sample_stub "1" 30; sample_stub "2" 20] <> []
  /\ exists items,
      [sample_stub "1" 30; sample_stub "2" 20] = [sample_stub "1" 30] ++ items.
Proof.
  apply (X6_loop_returns_an_extension "7"
           ([ok (sample_page [sample_stub "2" 20])] :: repeat empty_page 6)
           [sample_stub "1" 30] 0 [sample_stub "1" 30; sample_stub "2" 20] []
           (snd (more_reports "7" [sample_stub "1" 30] 0
                   ([ok (sample_page [sample_stub "2" 20])] :: repeat empty_page 6)))).
  vm_compute. reflexivity.
Defined.

(** X7: enumeration never hands an empty list on.  Whenever it returns,
    its list is not empty; when the items of the list are objects, as
    stubs are, the split into chunks that follows gets at least one section
    and succeeds, with the chunks making up the list. *)
Theorem X7_enumeration_feeds_the_split :
  forall profile_name profile_id w report_list w' t,
    enumerate profile_name profile_id w = (Ret report_list, w', t) ->
    Forall object report_list ->
    report_list <> []
    /\ exists chunks,
        array_split report_list (sections_for (length report_list)) = Ret chunks
        /\ concat chunks = report_list.
Proof.
  intros profile_name profile_id w rl w' t H _.
  assert (rl <> []) as Hne.
  { unfold enumerate, bind in H.
    destruct (first_page profile_name profile_id w) as [[[rl0|e|] w1] t1];
      try discriminate H.
    destruct (more_reports profile_id rl0 0 w1) as [[o w2] t2] eqn:E.
    inversion H; subst.
    now destruct (more_reports_extends _ _ _ _ _ _ _ E). }
  split; [exact Hne|].
  destruct (array_split_partition rl Hne) as (chunks & Hs & _ & Hc & _).
  now exists chunks.
Qed.

Lemma X7_enumeration_feeds_the_split_witness :
  [sample_stub "1" 30; sample_stub "2" 20] <> []
  /\ exists chunks,
      array_split [sample_stub "1" 30; sample_stub "2" 20]
        (sections_for (length [sample_stub "1" 30; sample_stub "2" 20])) = Ret chunks
      /\ concat chunks = [sample_stub "1" 30; sample_stub "2" 20].
Proof.
  apply (X7_enumeration_feeds_the_split "Brisppy" "7"
           ([ok (sample_page [sample_stub "1" 30])]
              :: [ok (sample_page [sample_stub "2" 20])] :: repeat empty_page 6)
           [sample_stub "1" 30; sample_stub "2" 20] []
           (snd (enumerate "Brisppy" "7"
                   ([ok (sample_page [sample_stub "1" 30])]
                      :: [ok (sample_page [sample_stub "2" 20])]
                      :: repeat empty_page 6)))).
  - vm_compute. reflexivity.
  - repeat constructor; eexists; reflexivity.
Defined.

(** ** Further properties: the per-record loop *)

Lemma retrieve_rate_limits url blocked : forall attempt x,
  Forall (fun r => fst r <> 200%Z) blocked ->
  retrieve_from url attempt (map (fun r => Response (fst r) (snd r)) blocked ++ x)
  = (fst (retrieve_from url (attempt + length blocked) x),
     tries (length blocked) [Get url; Print "X"; Sleep 600]
       ++ snd (retrieve_from url (attempt + length blocked) x)).
Proof.
  induction blocked as [|[st body] blocked IH]; intros attempt x Hall.
  - cbn [map app length]. rewrite Nat.add_0_r. now destruct (retrieve_from url attempt x).
  - inversion Hall as [|? ? Hst Hall']; subst. cbn [fst] in Hst.
    cbn [map app fst snd length].
    rewrite (retrieve_rate_limited _ _ _ _ _ Hst), (IH (S attempt) x Hall').
    replace (S attempt + length blocked) with (attempt + S (length blocked)) by lia.
    reflexivity.
Qed.

(** X8: the tries spent on responses that are not a 200 count towards the
    cap of six like all others.  After five or more of them the first 200
    without data is final: the record is given up at once, without a
    retry. *)
Theorem X8_rate_limited_tries_count_towards_the_cap :
  forall url blocked body x,
    Forall (fun r => fst r <> 200%Z) blocked ->
    5 <= length blocked ->
    truthy body = false ->
    battlelogRetrieveReport url
      (map (fun r => Response (fst r) (snd r)) blocked ++ ok body :: x)
    = (Ret (JObj []),
       tries (length blocked) [Get url; Print "X"; Sleep 600]
         ++ [Get url; Print "x"]).
Proof.
  intros url blocked body x Hall Hlen Hf. unfold battlelogRetrieveReport.
  rewrite (retrieve_rate_limits url blocked 0 _ Hall), (retrieve_no_data _ _ _ _ Hf).
  cbn [Nat.add].
  replace (6 <=? S (length blocked)) with true by (symmetry; apply Nat.leb_le; lia).
  reflexivity.
Qed.

Lemma X8_rate_limited_tries_count_towards_the_cap_witness :
  battlelogRetrieveReport (GeneralReport (JStr "1") "7")
    (map (fun r => Response (fst r) (snd r))
         [(403%Z, None); (403%Z, None); (500%Z, None); (403%Z, None); (403%Z, None)]
     ++ ok JNull :: [ok (sample_detail "1")])
  = (Ret (JObj []),
     tries 5 [Get (GeneralReport (JStr "1") "7"); Print "X"; Sleep 600]
       ++ [Get (GeneralReport (JStr "1") "7"); Print "x"]).
Proof.
  apply (X8_rate_limited_tries_count_towards_the_cap (GeneralReport (JStr "1") "7")
           [(403%Z, None); (403%Z, None); (500%Z, None); (403%Z, None); (403%Z, None)]
           JNull [ok (sample_detail "1")]).
  - repeat constructor; simpl; lia.
  - simpl. lia.
  - reflexivity.
Defined.

Lemma requests_cons_get e t : requests (Get e :: t) = S (requests t).
Proof. reflexivity. Qed.

Lemma retrieve_returns url : forall x attempt report t,
  retrieve_from url attempt x = (Ret report, t) ->
  (truthy report = true /\ 1 <= requests t)
  \/ (report = JObj [] /\ 6 <= attempt + requests t).
Proof.
  induction x as [|r x IH]; intros attempt report t H; cbn [retrieve_from] in H.
  - discriminate H.
  - destruct (retrieve_from url (S attempt) x) as [o t'] eqn:E.
    assert (forall pre, o = Ret report ->
              (truthy report = true /\ 1 <= requests (Get url :: pre ++ t'))
              \/ (report = JObj [] /\ 6 <= attempt + requests (Get url :: pre ++ t')))
      as Hlater.
    { intros pre ->. rewrite requests_cons_get.
      unfold requests in *. rewrite filter_app, length_app.
      destruct (IH _ _ _ E) as [[Ht Hr]|[Hr Hn]]; [left|right]; split; auto; lia. }
    destruct r as [status body|e].
    + destruct (status =? 200)%Z.
      * destruct body as [rep|]; [|discriminate H].
        destruct (truthy rep && text_not_null rep) eqn:Ht.
        -- inversion H; subst. left. apply andb_true_iff in Ht.
           split; [tauto|cbn; lia].
        -- destruct (6 <=? S attempt) eqn:Hcap.
           ++ inversion H; subst. right. apply Nat.leb_le in Hcap.
              split; [reflexivity|cbn; lia].
           ++ inversion H; subst. apply (Hlater [Print "."; Sleep 3] eq_refl).
      * inversion H; subst. apply (Hlater [Print "X"; Sleep 600] eq_refl).
    + destruct e; try discriminate H; inversion H; subst.
      * apply (Hlater [Print "X"; Sleep 600] eq_refl).
      * apply (Hlater [Sleep 10] eq_refl).
Qed.

(** X9: what a report task returns is either a non-empty document or the
    empty object, never [None] or another empty value; and the empty
    object is only returned once the loop has made six requests or more. *)
Theorem X9_task_returns_report_or_gives_up :
  forall url x report t,
    battlelogRetrieveReport url x = (Ret report, t) ->
    (truthy report = true /\ 1 <= requests t)
    \/ (report = JObj [] /\ 6 <= requests t).
Proof.
  intros url x report t H.
  destruct (retrieve_returns url x 0 report t H) as [Hl|[Hr Hn]]; [left|right]; auto.
Qed.

Lemma X9_task_returns_report_or_gives_up_witness :
  (truthy (JObj []) = true
   /\ 1 <= requests (snd (battlelogRetrieveReport (GeneralReport (JStr "2") "7")
                            (sample_service (GeneralReport (JStr "2") "7")))))
  \/ (JObj [] = JObj []
      /\ 6 <= requests (snd (battlelogRetrieveReport (GeneralReport (JStr "2") "7")
                               (sample_service (GeneralReport (JStr "2") "7"))))).
Proof.
  apply (X9_task_returns_report_or_gives_up (GeneralReport (JStr "2") "7")
           (sample_service (GeneralReport (JStr "2") "7"))).
  vm_compute. reflexivity.
Defined.

(** ** Further properties: the fetch stage as a whole *)

Section FetchStageReturns.
Variable profile_id : string.
Variable service : endpoint -> exchange.

Lemma tasks_returned : forall chunk urls reports,
  traverse (report_url profile_id) chunk = Ret urls ->
  all_ret (map fst (map (report_task service) urls)) = Some reports ->
  Forall (settles profile_id service) chunk
  /\ filter truthy reports = kept profile_id service chunk.
Proof.
  induction chunk as [|stub chunk IH]; intros urls reports Hu Ha; cbn [traverse] in Hu.
  - inversion Hu; subst. cbn in Ha. inversion Ha; subst. split; [constructor|reflexivity].
  - destruct (report_url profile_id stub) as [url| |] eqn:Eu; try discriminate Hu.
    cbn [obind] in Hu.
    destruct (traverse (report_url profile_id) chunk) as [urls'| |];
      try discriminate Hu.
    cbn [obind] in Hu. inversion Hu; subst. cbn [map all_ret] in Ha.
    destruct (fst (report_task service url)) as [report| |] eqn:Er;
      try discriminate Ha.
    destruct (all_ret (map fst (map (report_task service) urls'))) as [rs|] eqn:Ea;
      try discriminate Ha.
    cbn [option_map] in Ha. inversion Ha; subst.
    destruct (IH urls' rs eq_refl Ea) as [Hall Hk].
    assert (settled profile_id service stub = Ret report) as Hs
        by (unfold settled; rewrite Eu; exact Er).
    split.
    + constructor; [exists report; exact Hs|exact Hall].
    + change (kept profile_id service (stub :: chunk))
        with ((match settled profile_id service stub with
               | Ret r => if truthy r then [r] else []
               | _ => []
               end) ++ kept profile_id service chunk).
      rewrite Hs, <- Hk. cbn [filter]. now destruct (truthy report).
Qed.

Lemma fetch_chunk_returned chunk reports t :
  fetch_chunk profile_id service chunk = (Ret reports, t) ->
  Forall (settles profile_id service) chunk
  /\ reports = kept profile_id service chunk.
Proof.
  unfold fetch_chunk, gather. intros H.
  destruct (traverse (report_url profile_id) chunk) as [urls| |] eqn:Hu;
    try discriminate H.
  destruct (first_raise (map fst (map (report_task service) urls)));
    try discriminate H.
  destruct (all_ret (map fst (map (report_task service) urls))) as [rs|] eqn:Ha;
    try discriminate H.
  cbn [obind] in H. inversion H; subst.
  exact (tasks_returned chunk urls rs Hu Ha).
Qed.

Lemma fetch_chunks_returned chunks : forall acc reports t,
  fetch_chunks profile_id service chunks acc = (Ret reports, t) ->
  Forall (settles profile_id service) (concat chunks)
  /\ reports = acc ++ kept profile_id service (concat chunks).
Proof.
  induction chunks as [|c chunks IH]; intros acc reports t H; cbn [fetch_chunks] in H.
  - inversion H; subst. split; [constructor|now rewrite app_nil_r].
  - destruct (fetch_chunk profile_id service c) as [[rs| |] t1] eqn:Hc;
      try discriminate H.
    destruct (fetch_chunks profile_id service chunks (acc ++ rs)) as [o t2] eqn:Hcs.
    inversion H; subst.
    destruct (fetch_chunk_returned _ _ _ Hc) as [Hall1 ->].
    destruct (IH _ _ _ Hcs) as [Hall2 ->].
    cbn [concat]. split; [apply Forall_app; now split|].
    now rewrite kept_app, app_assoc.
Qed.

Lemma fetch_all_returned report_list chunks battlelog_reports t :
  fetch_all profile_id service report_list = (Ret (chunks, battlelog_reports), t) ->
  report_list <> []
  /\ Forall (settles profile_id service) report_list
  /\ concat chunks = report_list
  /\ battlelog_reports = kept profile_id service report_list.
Proof.
  unfold fetch_all. intros H.
  destruct report_list as [|s l] eqn:El; [discriminate H|]. rewrite <- El in *.
  assert (report_list <> []) as Hne by congruence.
  destruct (array_split_partition report_list Hne) as (cs & Hs & _ & Hc & _).
  rewrite Hs in H.
  destruct (fetch_chunks profile_id service cs []) as [[rs| |] t1] eqn:Hcs;
    try discriminate H.
  cbn [obind] in H. inversion H; subst chunks battlelog_reports t.
  destruct (fetch_chunks_returned _ _ _ _ Hcs) as [Hall ->].
  rewrite Hc in *. auto.
Qed.
End FetchStageReturns.

(** X10: the fetch stage returns exactly when the list is not empty and
    the task of every stub comes back; what it then returns is, in the
    order of the stubs, the non-empty reports of the tasks, and chunks
    that make up the list. *)
Theorem X10_fetch_stage_returns_iff_all_tasks_do :
  forall profile_id service report_list,
    (forall chunks battlelog_reports t,
        fetch_all profile_id service report_list = (Ret (chunks, battlelog_reports), t) ->
        report_list <> []
        /\ Forall (settles profile_id service) report_list
        /\ concat chunks = report_list
        /\ battlelog_reports = kept profile_id service report_list)
    /\ (report_list <> [] ->
        Forall (settles profile_id service) report_list ->
        exists chunks t,
          fetch_all profile_id service report_list
          = (Ret (chunks, kept profile_id service report_list), t)).
Proof.
  intros profile_id service rl. split.
  - intros chunks reports t H. exact (fetch_all_returned _ _ _ _ _ _ H).
  - intros Hne Hall.
    destruct (fetch_all_settled profile_id service rl Hne Hall) as (chunks & t & H & _).
    now exists chunks, t.
Qed.

Lemma X10_fetch_stage_returns_iff_all_tasks_do_witness :
  exists chunks t,
    fetch_all "7" sample_service [sample_stub "1" 30; sample_stub "2" 20]
    = (Ret (chunks, kept "7" sample_service [sample_stub "1" 30; sample_stub "2" 20]), t).
Proof.
  apply (proj2 (X10_fetch_stage_returns_iff_all_tasks_do "7" sample_service
                  [sample_stub "1" 30; sample_stub "2" 20])).
  - discriminate.
  - repeat constructor; eexists; reflexivity.
Defined.

(** X11: one task that raises takes the whole stage with it.  If the task
    of any stub ends in an exception (for one, a 200 whose body does not
    decode), or a stub has no [gameReportId], the fetch stage returns
    nothing: the reports of all other stubs are lost with it. *)
Theorem X11_one_raising_task_loses_all :
  forall profile_id service report_list stub e,
    In stub report_list ->
    settled profile_id service stub = Raise e ->
    fst (fetch_all profile_id service report_list) = Starved
    \/ exists e', fst (fetch_all profile_id service report_list) = Raise e'.
Proof.
  intros profile_id service rl stub e Hin Hs.
  destruct (fetch_all profile_id service rl) as [[[chunks reports]|e'|] t] eqn:H;
    [|right; now exists e'|now left].
  destruct (fetch_all_returned _ _ _ _ _ _ H) as (_ & Hall & _).
  rewrite Forall_forall in Hall. destruct (Hall stub Hin) as [r Hr]. congruence.
Qed.

Lemma X11_one_raising_task_loses_all_witness :
  fst (fetch_all "7" undecodable_service [sample_stub "1" 30; sample_stub "3" 10])
    = Starved
  \/ exists e',
      fst (fetch_all "7" undecodable_service [sample_stub "1" 30; sample_stub "3" 10])
      = Raise e'.
Proof.
  apply (X11_one_raising_task_loses_all "7" undecodable_service
           [sample_stub "1" 30; sample_stub "3" 10] (sample_stub "3" 10) DecodeError).
  - simpl. tauto.
  - reflexivity.
Defined.

Lemma cuts_lengths {A} (ary : list A) sizes : forall st,
  st + list_sum sizes <= length ary ->
  map (@length A) (cuts st sizes ary) = sizes.
Proof.
  induction sizes as [|n sizes IH]; intros st H; [reflexivity|].
  cbn [cuts map]. change (st + (n + list_sum sizes) <= length ary) in H. f_equal.
  - unfold slice. rewrite length_firstn, length_skipn. lia.
  - apply IH. lia.
Qed.

(** X12: the chunks are balanced, not filled up.  For [N] stubs and
    [k = ceil(N / 20)] chunks, the first [N mod k] chunks have
    [N / k + 1] stubs and the others [N / k]; 25 stubs go into chunks of
    13 and 12.  No chunk is empty. *)
Theorem X12_chunks_are_balanced :
  forall report_list : list json,
    report_list <> [] ->
    exists chunks,
      array_split report_list (sections_for (length report_list)) = Ret chunks
      /\ map (@length json) chunks
         = repeat (S (length report_list / sections_for (length report_list)))
                  (length report_list mod sections_for (length report_list))
           ++ repeat (length report_list / sections_for (length report_list))
                     (sections_for (length report_list)
                      - length report_list mod sections_for (length report_list))
      /\ ~ In [] chunks.
Proof.
  intros rl Hne.
  assert (0 < length rl) as Hpos by (destruct rl; cbn; [congruence|lia]).
  destruct (sections_for_ceil (length rl)) as [Hup Hlo]. specialize (Hlo Hpos).
  set (k := sections_for (length rl)) in *.
  assert (0 < k) as Hk by lia.
  pose proof (Nat.div_mod_eq (length rl) k) as E.
  pose proof (Nat.mod_upper_bound (length rl) k ltac:(lia)) as B.
  eexists. split; [apply array_split_cuts; exact Hk|].
  set (q := length rl / k) in *. set (r := length rl mod k) in *.
  assert (map (@length json) (cuts 0 (repeat (S q) r ++ repeat q (k - r)) rl)
          = repeat (S q) r ++ repeat q (k - r)) as Hlen.
  { apply cuts_lengths. rewrite list_sum_app, !list_sum_repeat. nia. }
  split; [exact Hlen|].
  intros Hin. apply (in_map (@length json)) in Hin. rewrite Hlen in Hin.
  cbn [length] in Hin. apply in_app_or in Hin.
  destruct Hin as [Hin|Hin]; apply repeat_spec in Hin; nia.
Qed.

Lemma X12_chunks_are_balanced_witness :
  exists chunks,
    array_split (sample_stubs 25) (sections_for (length (sample_stubs 25))) = Ret chunks
    /\ map (@length json) chunks
       = repeat (S (length (sample_stubs 25) / sections_for (length (sample_stubs 25))))
                (length (sample_stubs 25) mod sections_for (length (sample_stubs 25)))
         ++ repeat (length (sample_stubs 25) / sections_for (length (sample_stubs 25)))
                   (sections_for (length (sample_stubs 25))
                    - length (sample_stubs 25) mod sections_for (length (sample_stubs 25)))
    /\ ~ In [] chunks.
Proof.
  apply (X12_chunks_are_balanced (sample_stubs 25)). discriminate.
Defined.

(** X13: when the service has every report at hand (the first reply to
    each report request is a 200 with a non-empty document), the fetch
    stage returns exactly these documents, one per stub and in the order
    of the stubs. *)
Theorem X13_all_ready_gives_one_detail_per_stub :
  forall profile_id service report_list details,
    report_list <> [] ->
    Forall2 (fun stub detail =>
               exists id x,
                 subscript stub "gameReportId" = Ret id
                 /\ service (GeneralReport id profile_id) = ok detail :: x
                 /\ truthy detail = true)
            report_list details ->
    (exists chunks t,
        fetch_all profile_id service report_list = (Ret (chunks, details), t))
    /\ length details = length report_list.
Proof.
  intros profile_id service rl details Hne Hall.
  assert (Forall (settles profile_id service) rl
          /\ kept profile_id service rl = details) as [Hs Hk].
  { clear Hne.
    induction Hall as [|stub detail rl details (id & x & Hid & Hsv & Ht) _ [IH1 IH2]].
    - split; [constructor|reflexivity].
    - assert (settled profile_id service stub = Ret detail) as Hst.
      { unfold settled, report_url, report_task, battlelogRetrieveReport.
        rewrite Hid. cbn [obind]. rewrite Hsv.
        now rewrite (retrieve_success _ _ _ _ Ht). }
      split; [constructor; [now exists detail|exact IH1]|].
      change (kept profile_id service (stub :: rl))
        with ((match settled profile_id service stub with
               | Ret r => if truthy r then [r] else []
               | _ => []
               end) ++ kept profile_id service rl).
      now rewrite Hst, Ht, IH2. }
  split; [|symmetry; exact (Forall2_length Hall)].
  destruct (fetch_all_settled profile_id service rl Hne Hs) as (chunks & t & H & _).
  exists chunks, t. now rewrite H, Hk.
Qed.

Lemma X13_all_ready_gives_one_detail_per_stub_witness :
  (exists chunks t,
      fetch_all "7" ready_service [sample_stub "1" 30; sample_stub "2" 20]
      = (Ret (chunks, [sample_detail "1"; sample_detail "2"]), t))
  /\ length [sample_detail "1"; sample_detail "2"]
     = length [sample_stub "1" 30; sample_stub "2" 20].
Proof.
  apply (X13_all_ready_gives_one_detail_per_stub "7" ready_service
           [sample_stub "1" 30; sample_stub "2" 20]
           [sample_detail "1"; sample_detail "2"]).
  - discriminate.
  - repeat constructor; eexists; exists []; repeat split.
Defined.

(** ** Further properties: the write step *)




(** ** Further properties: the run *)

(** X15: the ids are read off the profile right after the first request.
    When the profile lacks one of the paths to [personaId], [userId] or
    the club's [id], the run raises at that point and makes no further
    request.  A player in no platoon ([club] is [null]) ends so, with
    [TypeError]; so does a profile whose body does not decode, with
    [KeyError]. *)
Theorem X15_profile_without_ids_ends_the_run :
  forall profile_name service x w profile_data e,
    answers x profile_data ->
    obind (persona profile_data "personaId")
          (fun _ => obind (persona profile_data "userId")
                          (fun _ => club profile_data)) = Raise e ->
    fst (main profile_name service (x :: w)) = (Raise e, w)
    /\ fst (main profile_name service ([ok clubless_profile] :: w))
       = (Raise TypeError, w)
    /\ fst (main profile_name service ([Response 200 None] :: w))
       = (Raise KeyError, w).
Proof.
  intros profile_name service x w pd e Hx He.
  split; [|split; reflexivity].
  destruct (Hx (User profile_name)) as [t Ht].
  unfold main, bind, say, emit, lift. unfold battlelogApiFetch at 1.
  rewrite Ht. cbv beta iota zeta.
  destruct (persona pd "personaId") as [pid|e1|]; cbn [obind] in He;
    [|inversion He; reflexivity|discriminate He].
  destruct (persona pd "userId") as [uid|e2|]; cbn [obind] in He;
    [|inversion He; reflexivity|discriminate He].
  rewrite He. reflexivity.
Qed.

Lemma X15_profile_without_ids_ends_the_run_witness :
  fst (main "Brisppy" ready_service ([ok (JObj [("context", JObj [])])] :: []))
    = (Raise KeyError, [])
  /\ fst (main "Brisppy" ready_service ([ok clubless_profile] :: []))
     = (Raise TypeError, [])
  /\ fst (main "Brisppy" ready_service ([Response 200 None] :: []))
     = (Raise KeyError, []).
Proof.
  apply (X15_profile_without_ids_ends_the_run "Brisppy" ready_service
           [ok (JObj [("context", JObj [])])] [] (JObj [("context", JObj [])])
           KeyError).
  - intros ep. eexists. reflexivity.
  - reflexivity.
Defined.



























Lemma bind_fst_ret {A B} (m : M A) (k : A -> M B) w a w1 :
  fst (m w) = (Ret a, w1) -> fst (bind m k w) = fst (k a w1).
Proof.
  unfold bind. destruct (m w) as [[o w'] t]. cbn [fst]. intros H.
  inversion H; subst. now destruct (k a w1) as [[o2 w2] t2].
Qed.

Lemma fetch_answers_fst ep x w reports :
  answers x reports -> fst (battlelogApiFetch ep (x :: w)) = (Ret reports, w).
Proof.
  intros Hx. destruct (Hx ep) as [t Ht]. unfold battlelogApiFetch. now rewrite Ht.
Qed.

Lemma lift_fst {A} (o : outcome A) (a : A) w :
  o = Ret a -> fst (lift o w) = (Ret a, w).
Proof. now intros ->. Qed.

Lemma first_page_fst profile_name profile_id x w items :
  delivers x items ->
  fst (first_page profile_name profile_id (x :: w)) = (Ret items, w).
Proof.
  intros (reports & Hx & Hp). unfold first_page.
  rewrite (bind_fst_ret _ _ _ reports w) by now apply fetch_answers_fst.
  now rewrite Hp.
Qed.






Lemma fetch_tries_gets ep x : forall e,
  In (Get e) (snd (fetch_tries ep x)) -> e = ep.
Proof.
  induction x as [|[status body|e0] x IH]; intros e H; cbn [fetch_tries] in H.
  - destruct H.
  - destruct (status =? 504)%Z.
    + destruct (fetch_tries ep x) as [o t]. cbn [snd] in *.
      destruct H as [H|[H|H]]; [now inversion H|discriminate H|auto].
    + destruct (status =? 403)%Z; cbn in H;
        repeat (destruct H as [H|H]; [try discriminate H; now inversion H|]);
        destruct H.
  - cbn in H.
    repeat (destruct H as [H|H]; [try discriminate H; now inversion H|]);
      destruct H.
Qed.

(** X18: every request for a further page carries the [createdAt] of the
    stub that is last in the list at that time.  A pass through the loop
    body asks for no other page, so while empty pages come back the same
    request is repeated. *)
Theorem X18_next_page_is_asked_from_the_last_stub :
  forall profile_id report_list n w o w1 t ep,
    page_step profile_id report_list n w = (o, w1, t) ->
    In (Get ep) t ->
    exists stub created_at,
      last_item report_list = Ret stub
      /\ subscript stub "createdAt" = Ret created_at
      /\ ep = ReportsMore profile_id created_at.
Proof.
  intros profile_id rl n w o w1 t ep H Hin.
  unfold page_step, bind, lift, ret, say, emit, battlelogApiFetch in H.
  destruct (last_item rl) as [stub| |] eqn:El; cbn [obind] in H;
    try (inversion H; subst; destruct Hin).
  destruct (subscript stub "createdAt") as [v| |] eqn:Ev;
    try (inversion H; subst; destruct Hin).
  exists stub, v.
  split; [first [exact El|reflexivity]|]. split; [first [exact Ev|reflexivity]|].
  destruct w as [|x w]; [inversion H; subst; destruct Hin|].
  pose proof (fetch_tries_gets (ReportsMore profile_id v) x ep) as Hg.
  destruct (fetch_tries (ReportsMore profile_id v) x) as [[reports| |] t0];
    cbn [snd] in Hg; try (inversion H; subst; now apply Hg).
  assert (In (Get ep) t -> In (Get ep) t0) as Hback.
  { destruct (game_reports reports) as [page| |];
      try (inversion H; subst; now rewrite app_nil_r).
    destruct (negb (truthy page) && (5 <=? n));
      [inversion H; subst; now rewrite !app_nil_r|].
    destruct (negb (truthy page));
      [inversion H; subst; now rewrite !app_nil_r|].
    destruct (slice_all page) as [items| |];
      try (inversion H; subst; now rewrite !app_nil_r).
    inversion H; subst. intros Hi.
    apply in_app_or in Hi. destruct Hi as [Hi|Hi]; [exact Hi|].
    cbn in Hi. destruct Hi as [Hi|[]]. discriminate Hi. }
  auto.
Qed.

Lemma X18_next_page_is_asked_from_the_last_stub_witness :
  exists stub created_at,
    last_item [sample_stub "1" 30; sample_stub "2" 20] = Ret stub
    /\ subscript stub "createdAt" = Ret created_at
    /\ ReportsMore "7" (JNum 20) = ReportsMore "7" created_at.
Proof.
  apply (X18_next_page_is_asked_from_the_last_stub "7"
           [sample_stub "1" 30; sample_stub "2" 20] 0
           [[Response 504 None; ok (sample_page [])]]
           (Ret (Continue [sample_stub "1" 30; sample_stub "2" 20] 1)) []
           [Get (ReportsMore "7" (JNum 20)); Sleep 5; Get (ReportsMore "7" (JNum 20))]).
  - reflexivity.
  - simpl. tauto.
Defined.

(** ** Theorems: a 403 on a blocking fetch ends the run *)

Lemma fetch_tries_forbidden ep bodies body x :
  fetch_tries ep (map (Response 504) bodies ++ Response 403 body :: x)
  = (Raise (SystemExit 1), tries (length bodies) [Get ep; Sleep 5] ++ forbidden ep).
Proof.
  induction bodies as [|b bodies IH]; [reflexivity|].
  cbn [map app fetch_tries length]. change (504 =? 504)%Z with true.
  cbv iota. now rewrite IH.
Qed.

Lemma clean_tries ep n : clean (tries n [Get ep; Sleep 5]).
Proof.
  unfold tries. apply clean_concat, Forall_forall. intros t Ht.
  apply repeat_spec in Ht. subst. clean_trace.
Qed.

Lemma forbids_after_504 body x : forbids x -> forbids (Response 504 body :: x).
Proof.
  intros (bodies & b & x' & ->). now exists (body :: bodies), b, x'.
Qed.

Lemma forbids_head status body x :
  forbids (Response status body :: x) ->
  status = 403%Z \/ (status = 504%Z /\ forbids x).
Proof.
  intros ([|b bodies] & b' & x' & H); cbn [map app] in H; inversion H; subst.
  - now left.
  - right. split; [reflexivity|]. now exists bodies, b', x'.
Qed.

Lemma forbids_dec x : forbids x \/ ~ forbids x.
Proof.
  induction x as [|[status body|e] x IH].
  - right. intros ([|b bodies] & b' & x' & H); discriminate H.
  - destruct (Z.eq_dec status 403) as [->|H403].
    + left. now exists [], body, x.
    + destruct (Z.eq_dec status 504) as [->|H504].
      * destruct IH as [IH|IH]; [left; now apply forbids_after_504|right].
        intros H. apply forbids_head in H. destruct H as [H|[_ H]]; [lia|auto].
      * right. intros H. apply forbids_head in H. destruct H as [H|[H _]]; lia.
  - right. intros ([|b bodies] & b' & x' & H); discriminate H.
Qed.

Lemma fetch_tries_unforbidden ep x :
  ~ forbids x -> clean (snd (fetch_tries ep x)).
Proof.
  induction x as [|[status body|e] x IH]; intros Hn; cbn [fetch_tries].
  - apply clean_nil.
  - destruct (Z.eqb_spec status 504) as [->|H504].
    + assert (~ forbids x) as Hx by (intros H; apply Hn; now apply forbids_after_504).
      specialize (IH Hx). destruct (fetch_tries ep x) as [o t]. cbn [snd] in *.
      clean_trace. exact IH.
    + destruct (Z.eqb_spec status 403) as [->|H403].
      * exfalso. apply Hn. now exists [], body, x.
      * cbn [snd]. clean_trace.
  - cbn [snd]. clean_trace.
Qed.

Lemma ends_untouched {A} w (o : outcome A) t : clean t -> ends_at_403 w (o, w, t).
Proof. intros Ht. exists []. split; [reflexivity|]. left. now split. Qed.

Lemma ends_after {A} w used1 w1 t1 (o : outcome A) w2 t2 :
  w = used1 ++ w1 -> Forall (fun x => ~ forbids x) used1 -> clean t1 ->
  ends_at_403 w1 (o, w2, t2) -> ends_at_403 w (o, w2, t1 ++ t2).
Proof.
  intros -> Hu Ht (used2 & Hw & H). cbn [fst snd] in *. subst w1.
  exists (used1 ++ used2). split; [now rewrite app_assoc|].
  destruct H as [[Hu2 Ht2]|(used0 & x & pre & ep & -> & Hu0 & Hx & Ho & -> & Hpre)].
  - left. split; [apply Forall_app; now split|now apply clean_app].
  - right. exists (used1 ++ used0), x, (t1 ++ pre), ep.
    rewrite !app_assoc. repeat split; auto.
    + apply Forall_app; now split.
    + now apply clean_app.
Qed.

Lemma ends_returned {A} w (a : A) w1 t :
  ends_at_403 w (Ret a, w1, t) ->
  exists used, w = used ++ w1 /\ Forall (fun x => ~ forbids x) used /\ clean t.
Proof.
  intros (used & Hw & [[Hu Ht]|(used0 & x & pre & ep & _ & _ & _ & Ho & _)]);
    cbn [fst snd] in *; [now exists used|discriminate Ho].
Qed.

Lemma ends_retype {A B} w (o : outcome A) (o' : outcome B) w1 t :
  (o = Raise (SystemExit 1) -> o' = Raise (SystemExit 1)) ->
  ends_at_403 w (o, w1, t) -> ends_at_403 w (o', w1, t).
Proof.
  intros Ho (used & Hw & H). exists used. split; [exact Hw|].
  destruct H as [H|(used0 & x & pre & ep & H1 & H2 & H3 & H4 & H5)]; [now left|right].
  exists used0, x, pre, ep. cbn [fst snd] in *. repeat split; auto; apply H5.
Qed.

Lemma lawful_ret {A} (a : A) : lawful (ret a).
Proof. intros w. apply ends_untouched, clean_nil. Qed.

Lemma lawful_lift {A} (o : outcome A) : lawful (lift o).
Proof. intros w. apply ends_untouched, clean_nil. Qed.

Lemma lawful_say s : Print s <> Print E403 -> lawful (say s).
Proof. intros Hs w. apply ends_untouched. now apply clean_cons; [|apply clean_nil]. Qed.

Lemma lawful_pure {A} (r : outcome A * list event) :
  clean (snd r) -> lawful (fun w => let '(o, t) := r in (o, w, t)).
Proof. intros H w. destruct r as [o t]. now apply ends_untouched. Qed.

Lemma lawful_bind {A B} (m : M A) (k : A -> M B) :
  lawful m -> (forall a, lawful (k a)) -> lawful (bind m k).
Proof.
  intros Hm Hk w. unfold bind. specialize (Hm w).
  destruct (m w) as [[[a|e|] w1] t1].
  - destruct (ends_returned _ _ _ _ Hm) as (used & Hw & Hu & Ht).
    specialize (Hk a w1). destruct (k a w1) as [[o w2] t2].
    exact (ends_after w used w1 t1 o w2 t2 Hw Hu Ht Hk).
  - eapply ends_retype; [|exact Hm]; congruence.
  - eapply ends_retype; [|exact Hm]; discriminate.
Qed.

Lemma lawful_fetch ep : lawful (battlelogApiFetch ep).
Proof.
  intros [|x w]; unfold battlelogApiFetch.
  - apply ends_untouched, clean_nil.
  - exists [x]. destruct (forbids_dec x) as [Hx|Hx].
    + pose proof Hx as (bodies & body & x' & ->).
      rewrite fetch_tries_forbidden. split; [reflexivity|]. right.
      exists [], (map (Response 504) bodies ++ Response 403 body :: x'),
        (tries (length bodies) [Get ep; Sleep 5]), ep.
      cbn [fst snd]. repeat split; auto. apply clean_tries.
    + pose proof (fetch_tries_unforbidden ep x Hx) as Hc.
      destruct (fetch_tries ep x) as [o t]. split; [reflexivity|]. left.
      split; [now constructor|exact Hc].
Qed.

Lemma lawful_first_page profile_name profile_id :
  lawful (first_page profile_name profile_id).
Proof.
  apply lawful_bind; [apply lawful_fetch|]. intros reports.
  destruct (obind (game_reports reports) slice_all) as [l|e|];
    try apply lawful_lift.
  destruct e; try apply lawful_lift.
  apply lawful_bind; [apply lawful_say; other_event|]. intros _. apply lawful_lift.
Qed.

Lemma lawful_page_step profile_id report_list n :
  lawful (page_step profile_id report_list n).
Proof.
  apply lawful_bind; [apply lawful_lift|]. intros created_at.
  apply lawful_bind; [apply lawful_fetch|]. intros reports.
  apply lawful_bind; [apply lawful_lift|]. intros page.
  destruct (negb (truthy page) && (5 <=? n)); [apply lawful_ret|].
  destruct (negb (truthy page)); [apply lawful_ret|].
  apply lawful_bind; [apply lawful_lift|]. intros items.
  apply lawful_bind; [apply lawful_say; other_event|]. intros _. apply lawful_ret.
Qed.

(** A pass that comes back has used up the exchange at the head. *)
Lemma page_step_leftover profile_id report_list n x w s w1 t :
  page_step profile_id report_list n (x :: w) = (Ret s, w1, t) -> w1 = w.
Proof.
  unfold page_step, bind, lift, ret, say, emit, battlelogApiFetch. intros H.
  destruct (obind (last_item report_list) (fun s0 => subscript s0 "createdAt"))
    as [v| |]; try discriminate H.
  destruct (fetch_tries (ReportsMore profile_id v) x) as [[reports| |] t0];
    try discriminate H.
  destruct (game_reports reports) as [page| |]; try discriminate H.
  destruct (negb (truthy page) && (5 <=? n)); [now inversion H|].
  destruct (negb (truthy page)); [now inversion H|].
  destruct (slice_all page) as [items| |]; try discriminate H.
  now inversion H.
Qed.

Lemma lawful_more_reports profile_id : forall w report_list n,
  ends_at_403 w (more_reports profile_id report_list n w).
Proof.
  induction w as [|x w IH]; intros rl n; cbn [more_reports].
  - pose proof (lawful_page_step profile_id rl n []) as H.
    destruct (page_step profile_id rl n []) as [[o w1] t].
    eapply ends_retype; [|exact H]; intros ->; reflexivity.
  - pose proof (lawful_page_step profile_id rl n (x :: w)) as H.
    destruct (page_step profile_id rl n (x :: w)) as [[[s|e|] w1] t] eqn:E.
    + pose proof (page_step_leftover _ _ _ _ _ _ _ _ E) as ->.
      destruct (ends_returned _ _ _ _ H) as (used & Hw & Hu & Ht).
      destruct s as [|rl' n'].
      * eapply ends_retype; [|exact H]; discriminate.
      * specialize (IH rl' n').
        destruct (more_reports profile_id rl' n' w) as [[o w2] t2].
        exact (ends_after _ used w t o w2 t2 Hw Hu Ht IH).
    + eapply ends_retype; [|exact H]; congruence.
    + eapply ends_retype; [|exact H]; discriminate.
Qed.

Lemma lawful_enumerate profile_name profile_id :
  lawful (enumerate profile_name profile_id).
Proof.
  apply lawful_bind; [apply lawful_first_page|].
  intros rl w. apply lawful_more_reports.
Qed.

Lemma lawful_write_all pd cd ws vs ds asg aw report_list battlelog_reports :
  lawful (write_all pd cd ws vs ds asg aw report_list battlelog_reports).
Proof.
  intros w. unfold write_all.
  pose proof (write_reports_clean battlelog_reports) as H.
  destruct (write_reports battlelog_reports) as [[u|e|] t]; cbn [snd] in *;
    apply ends_untouched; clean_trace; try exact H; clean_trace.
Qed.

Lemma lawful_main profile_name service : lawful (main profile_name service).
Proof.
  unfold main.
  repeat first
    [ apply lawful_enumerate
    | apply lawful_fetch
    | apply lawful_lift
    | apply lawful_write_all
    | apply lawful_say; other_event
    | apply lawful_pure; apply fetch_all_clean
    | apply lawful_bind; [|intros ?]
    | match goal with p : (_ * _)%type |- _ => destruct p end ].
Qed.

(** What a run that used up an exchange leading to a 403 looks like. *)
Lemma main_ends_at_403 profile_name service w o w' t used :
  main profile_name service w = (o, w', t) ->
  w = used ++ w' ->
  Exists forbids used ->
  o = Raise (SystemExit 1)
  /\ (exists used0 x,
        used = used0 ++ [x] /\ forbids x /\ Forall (fun y => ~ forbids y) used0)
  /\ exists pre ep, t = pre ++ forbidden ep /\ clean pre.
Proof.
  intros Hrun Hw Hex.
  pose proof (lawful_main profile_name service w) as (used' & Hw' & H).
  rewrite Hrun in Hw', H. cbn [fst snd] in *.
  assert (used' = used) as -> by (apply (app_inv_tail w'); congruence).
  destruct H as [[Hu _]|(used0 & x & pre & ep & -> & Hu0 & Hx & Ho & -> & Hpre)].
  - apply Exists_exists in Hex. destruct Hex as (x & Hin & Hx).
    rewrite Forall_forall in Hu. now destruct (Hu x Hin).
  - split; [exact Ho|]. split; [now exists used0, x|now exists pre, ep].
Qed.

Lemma bind_fst_raise {A B} (m : M A) (k : A -> M B) w e w1 :
  fst (m w) = (Raise e, w1) -> fst (bind m k w) = (Raise e, w1).
Proof.
  unfold bind. destruct (m w) as [[o w'] t]. cbn [fst]. intros H.
  now inversion H; subst.
Qed.

Lemma fetch_forbids_fst ep x w :
  forbids x -> fst (battlelogApiFetch ep (x :: w)) = (Raise (SystemExit 1), w).
Proof.
  intros (bodies & body & x' & ->). unfold battlelogApiFetch.
  now rewrite fetch_tries_forbidden.
Qed.

Lemma main_forbidden_trace profile_name service w used rest :
  fst (main profile_name service w) = (Raise (SystemExit 1), rest) ->
  w = used ++ rest ->
  Exists forbids used ->
  exists pre ep,
    main profile_name service w = (Raise (SystemExit 1), rest, pre ++ forbidden ep)
    /\ ~ In (Print E403) pre.
Proof.
  intros Hfst Hw Hex.
  destruct (main profile_name service w) as [[o w'] t] eqn:Hrun.
  cbn [fst] in Hfst. inversion Hfst; subst o w'.
  destruct (main_ends_at_403 _ _ _ _ _ _ _ Hrun Hw Hex) as (_ & _ & pre & ep & -> & Hpre).
  now exists pre, ep.
Qed.

Ltac run_on :=
  erewrite bind_fst_ret;
  [ cbv beta
  | solve [ reflexivity
          | apply fetch_answers_fst; eassumption
          | apply lift_fst; eassumption ] ].

Ltac run_into_403 :=
  repeat first [ apply bind_fst_raise | progress unfold enumerate, first_page ];
  apply fetch_forbids_fst; assumption.

(** The 403 at one of the first eight requests: the seven metadata
    requests and the first page of the report list. *)
Lemma main_forbidden_early profile_name service good bad rest :
  forbids bad ->
  length good <= 7 ->
  match good with
  | [] => True
  | x1 :: others =>
      (exists profile_data profile_id user_id club_id,
          answers x1 profile_data
          /\ persona profile_data "personaId" = Ret (JStr profile_id)
          /\ persona profile_data "userId" = Ret (JStr user_id)
          /\ club profile_data = Ret (JStr club_id))
      /\ Forall (fun x => exists reports, answers x reports) others
  end ->
  fst (main profile_name service (good ++ bad :: rest)) = (Raise (SystemExit 1), rest).
Proof.
  intros Hbad Hlen Hgood.
  destruct good as [|x1 good].
  { cbn [app]. unfold main. repeat run_on. run_into_403. }
  destruct Hgood as [(pd & pid & uid & cid & H1 & Hpid & Huid & Hcid) Hothers].
  do 7 (destruct good as [|? good];
        [ cbn [app]; unfold main; repeat run_on; run_into_403
        | let H := fresh "Hx" in
          let j := fresh "j" in
          inversion Hothers as [|? ? [j H] Hothers']; subst;
          clear Hothers; rename Hothers' into Hothers ]).
  cbn [length] in Hlen. lia.
Qed.

Section LaterPages.
Variable profile_id : string.

Lemma more_reports_through pages w :
  Forall2 delivers w pages ->
  forall report_list n tail,
    report_list <> [] -> Forall dated report_list ->
    Forall (Forall dated) pages ->
    empty_run 6 (repeat [] n ++ pages) = false ->
    exists report_list' n',
      report_list' <> [] /\ Forall dated report_list'
      /\ fst (more_reports profile_id report_list n (w ++ tail))
         = fst (more_reports profile_id report_list' n' tail).
Proof.
  induction 1 as [|x page w pages Hx _ IH]; intros rl n tail Hne Hrl Hpages Hrun.
  - now exists rl, n.
  - inversion Hpages as [|? ? Hpage Hpages']; subst.
    cbn [app]. destruct page as [|item items].
    + rewrite more_reports_empty by assumption.
      rewrite repeat_snoc in Hrun.
      destruct (Nat.leb_spec 5 n) as [Hn|Hn].
      * rewrite empty_run_six in Hrun by lia. discriminate Hrun.
      * now apply IH.
    + rewrite (more_reports_items profile_id rl n x (w ++ tail) item items)
        by assumption.
      apply IH; try assumption.
      * intros E. apply app_eq_nil in E. destruct E as [_ E]. discriminate E.
      * apply Forall_app. now split.
      * apply (empty_run_suffix 6 (repeat [] n ++ [item :: items])).
        now rewrite <- app_assoc.
Qed.

Lemma more_reports_forbidden report_list n bad rest :
  report_list <> [] -> Forall dated report_list -> forbids bad ->
  fst (more_reports profile_id report_list n (bad :: rest))
  = (Raise (SystemExit 1), rest).
Proof.
  intros Hne Hrl (bodies & body & x' & ->).
  destruct (cursor_dated report_list Hne Hrl) as [v Hv].
  cbn [more_reports]. unfold page_step, bind, lift, battlelogApiFetch.
  rewrite Hv, fetch_tries_forbidden. reflexivity.
Qed.

Lemma enumerate_forbidden_later profile_name x first wp pages bad rest :
  delivers x first -> first <> [] ->
  Forall2 delivers wp pages ->
  empty_run 6 pages = false ->
  Forall dated (first ++ concat pages) ->
  forbids bad ->
  fst (enumerate profile_name profile_id (x :: wp ++ bad :: rest))
  = (Raise (SystemExit 1), rest).
Proof.
  intros Hx Hne Hwp Hrun Hdated Hbad. unfold enumerate.
  rewrite (bind_fst_ret _ _ _ first (wp ++ bad :: rest)) by now apply first_page_fst.
  apply Forall_app in Hdated. destruct Hdated as [Hf Hpre].
  apply Forall_concat in Hpre.
  destruct (more_reports_through pages wp Hwp first 0 (bad :: rest) Hne Hf Hpre Hrun)
    as (rl' & n' & Hne' & Hrl' & ->).
  now apply more_reports_forbidden.
Qed.
End LaterPages.

(** The 403 at a later page of the report list. *)
Lemma main_forbidden_later profile_name service profile_data profile_id user_id
    club_id x1 x2 x3 x4 x5 x6 x7 x8 cd ws vs ds asg aw first wp pages bad rest :
  answers x1 profile_data ->
  persona profile_data "personaId" = Ret (JStr profile_id) ->
  persona profile_data "userId" = Ret (JStr user_id) ->
  club profile_data = Ret (JStr club_id) ->
  answers x2 cd -> answers x3 ws -> answers x4 vs -> answers x5 ds ->
  answers x6 asg -> answers x7 aw ->
  delivers x8 first -> first <> [] ->
  Forall2 delivers wp pages ->
  empty_run 6 pages = false ->
  Forall dated (first ++ concat pages) ->
  forbids bad ->
  fst (main profile_name service
         (x1 :: x2 :: x3 :: x4 :: x5 :: x6 :: x7 :: x8 :: wp ++ bad :: rest))
  = (Raise (SystemExit 1), rest).
Proof.
  intros H1 Hpid Huid Hcid H2 H3 H4 H5 H6 H7 H8 Hne Hwp Hrun Hdated Hbad.
  unfold main. repeat run_on.
  apply bind_fst_raise. now apply (enumerate_forbidden_later _ _ _ first wp pages).
Qed.

(** C9: a 403 on a blocking fetch ends the run.  When the reply that
    decides a call of [battlelogApiFetch] is a 403 (after any number of
    504s), the call prints the 403 line and exits with status 1 without
    another request.  In a run of [main] the exchanges are used up by the
    blocking fetches, one per call and in order; if one of those used up
    leads to a 403, it is the last one used, the run ends with
    [SystemExit 1] (exit status 1) and its trace ends with that request
    and the error lines: the request is not tried again and no page and no
    report is requested after it.  This is so at each place: when the
    requests before it are answered, a 403 at any of the seven metadata
    requests or at the first page of the report list ends the run there,
    with the exchanges after it untouched, and so does a 403 at a later
    page. *)
Theorem C9_forbidden_ends_the_run :
  (forall ep bodies body x w,
      battlelogApiFetch ep ((map (Response 504) bodies ++ Response 403 body :: x) :: w)
      = (Raise (SystemExit 1), w,
         tries (length bodies) [Get ep; Sleep 5] ++ forbidden ep))
  /\ (forall profile_name service w o w' t used,
        main profile_name service w = (o, w', t) ->
        w = used ++ w' ->
        Exists forbids used ->
        o = Raise (SystemExit 1)
        /\ exit_status o = Some 1%Z
        /\ (exists used0 x,
              used = used0 ++ [x] /\ forbids x
              /\ Forall (fun y => ~ forbids y) used0)
        /\ exists pre ep, t = pre ++ forbidden ep /\ ~ In (Print E403) pre)
  /\ (forall profile_name service good bad rest,
        forbids bad ->
        length good <= 7 ->
        match good with
        | [] => True
        | x1 :: others =>
            (exists profile_data profile_id user_id club_id,
                answers x1 profile_data
                /\ persona profile_data "personaId" = Ret (JStr profile_id)
                /\ persona profile_data "userId" = Ret (JStr user_id)
                /\ club profile_data = Ret (JStr club_id))
            /\ Forall (fun x => exists reports, answers x reports) others
        end ->
        exists pre ep,
          main profile_name service (good ++ bad :: rest)
          = (Raise (SystemExit 1), rest, pre ++ forbidden ep)
          /\ ~ In (Print E403) pre)
  /\ (forall profile_name service profile_data profile_id user_id club_id
             x1 x2 x3 x4 x5 x6 x7 x8 cd ws vs ds asg aw first wp pages bad rest,
        answers x1 profile_data ->
        persona profile_data "personaId" = Ret (JStr profile_id) ->
        persona profile_data "userId" = Ret (JStr user_id) ->
        club profile_data = Ret (JStr club_id) ->
        answers x2 cd -> answers x3 ws -> answers x4 vs -> answers x5 ds ->
        answers x6 asg -> answers x7 aw ->
        delivers x8 first -> first <> [] ->
        Forall2 delivers wp pages ->
        empty_run 6 pages = false ->
        Forall dated (first ++ concat pages) ->
        forbids bad ->
        exists pre ep,
          main profile_name service
            (x1 :: x2 :: x3 :: x4 :: x5 :: x6 :: x7 :: x8 :: wp ++ bad :: rest)
          = (Raise (SystemExit 1), rest, pre ++ forbidden ep)
          /\ ~ In (Print E403) pre).
Proof.
  split; [|split; [|split]].
  - intros ep bodies body x w. unfold battlelogApiFetch.
    now rewrite fetch_tries_forbidden.
  - intros profile_name service w o w' t used Hrun Hw Hex.
    destruct (main_ends_at_403 _ _ _ _ _ _ _ Hrun Hw Hex) as (-> & Hlast & Ht).
    repeat split; assumption.
  - intros profile_name service good bad rest Hbad Hlen Hgood.
    apply (main_forbidden_trace profile_name service _ (good ++ [bad]) rest).
    + now apply main_forbidden_early.
    + now rewrite <- app_assoc.
    + apply Exists_app. right. now constructor.
  - intros profile_name service pd pid uid cid x1 x2 x3 x4 x5 x6 x7 x8
           cd ws vs ds asg aw first wp pages bad rest
           H1 Hpid Huid Hcid H2 H3 H4 H5 H6 H7 H8 Hne Hwp Hrun Hdated Hbad.
    apply (main_forbidden_trace profile_name service _
             (x1 :: x2 :: x3 :: x4 :: x5 :: x6 :: x7 :: x8 :: wp ++ [bad]) rest).
    + now apply (main_forbidden_later _ _ pd pid uid cid _ _ _ _ _ _ _ _
                   cd ws vs ds asg aw first wp pages).
    + cbn [app]. now rewrite <- app_assoc.
    + do 8 apply Exists_cons_tl. apply Exists_app. right. now constructor.
Qed.

Lemma C9_forbidden_ends_the_run_witness :
  exists pre ep,
    main "Brisppy" ready_service
      ([[ok sample_profile]; [ok JNull]]
         ++ [Response 504 None; Response 403 None] :: [[ok JNull]])
    = (Raise (SystemExit 1), [[ok JNull]], pre ++ forbidden ep)
    /\ ~ In (Print E403) pre.
Proof.
  apply (proj1 (proj2 (proj2 C9_forbidden_ends_the_run)) "Brisppy" ready_service
           [[ok sample_profile]; [ok JNull]]
           [Response 504 None; Response 403 None] [[ok JNull]]).
  - exists [None], None, []. reflexivity.
  - simpl. lia.
  - split.
    + exists sample_profile, "7"%string, "8"%string, "9"%string.
      repeat split. intros ep. eexists. reflexivity.
    + repeat constructor. exists JNull. intros ep. eexists. reflexivity.
Defined.
